(** * logoscanva: grouped means, bar charts and the HTML report

    A shallow embedding of [main.py].  The pandas, plotly and jinja2 calls
    the script makes are written out as list and finite-map functions; the
    file system, the DataFrame objects and the plotting calls are threaded
    through an explicit state. *)

From Stdlib Require Import ZArith QArith PrimFloat FloatOps SpecFloat Uint63.
From stdpp Require Import gmap strings list sorting numbers pretty.

Open Scope string_scope.

#[local] Set Warnings "-clear-no-such-hyp".

(** ** Data model *)

(** One line of [data/data.csv].  The three label columns hold strings and
    the score column holds the 64-bit float pandas averages (an integer
    column is cast to float64 first); an empty score cell is NaN. *)
Record Row := mkRow {
  nivel : string;
  cargo : string;
  categoria : string;
  pontuacao : float
}.

(** A [pd.DataFrame] with the four columns of the script: rows in file order. *)
Definition DataFrame := list Row.

(** The label columns the script indexes by name. *)
Inductive Column := NIVEL | CARGO | CATEGORIA.

Definition column (c : Column) (r : Row) : string :=
  match c with
  | NIVEL => nivel r
  | CARGO => cargo r
  | CATEGORIA => categoria r
  end.

(** ** The pandas operations used by the script *)

(** [df[df[c] == v]]: the rows whose cell in column [c] equals [v], in order. *)
Definition select_eq (c : Column) (v : string) (df : DataFrame) : DataFrame :=
  filter (λ r, column c r = v) df.

(** [Series.unique()]: distinct values in order of first appearance. *)
Fixpoint unique (l : list string) : list string :=
  match l with
  | [] => []
  | x :: l' => x :: filter (λ y, y ≠ x) (unique l')
  end.

(** [sorted(...)] on strings: ascending by code point, which for UTF-8
    encoded strings is the byte-wise lexicographic order [String.le]. *)
Definition sorted (l : list string) : list string := merge_sort String.le l.

(** [df.groupby(c)]: one group per distinct key, keys ascending. *)
Definition groupby (c : Column) (df : DataFrame) : list (string * DataFrame) :=
  (λ k, (k, select_eq c k df)) <$> sorted (unique (column c <$> df)).

(** One step of the summation in pandas' [group_mean]: a missing score
    ([val == val] fails for NaN only) is skipped; any other is added with
    Kahan's compensation, which is reset when it is itself NaN (an
    infinite score), and counted. *)
Definition kahan_add (acc : float * float * Z) (val : float)
  : float * float * Z :=
  let '(sumx, compensation, nobs) := acc in
  if PrimFloat.eqb val val then
    let y := PrimFloat.sub val compensation in
    let t := PrimFloat.add sumx y in
    let c := PrimFloat.sub (PrimFloat.sub t sumx) y in
    (t, if PrimFloat.eqb c c then c else 0%float, Z.succ nobs)
  else (sumx, compensation, nobs).

(** The mean of a group as [groupby(...).mean()] computes it in float64:
    the compensated sum of the scores that are present, in row order,
    divided by their number; NaN when none is present. *)
Definition mean (xs : list float) : float :=
  let '(sumx, _, nobs) := fold_left kahan_add xs (0%float, 0%float, 0%Z) in
  if (nobs =? 0)%Z then nan
  else PrimFloat.div sumx (PrimFloat.of_uint63 (Uint63.of_Z nobs)).

(** [.groupby(c)['PONTUACAO'].mean()]: the Series of group means. *)
Definition groupby_mean (c : Column) (df : DataFrame) : list (string * float) :=
  (λ g, (g.1, mean (pontuacao <$> g.2))) <$> groupby c df.

(** [Series.to_dict()]. *)
Definition to_dict (s : list (string * float)) : gmap string float := list_to_map s.

(** The value computed by line 32 of [calculate_mean_scores] from the
    rows of its [data] argument. *)
Definition mean_scores (df : DataFrame) (level : string) (category_column : Column)
  : gmap string float :=
  to_dict (groupby_mean category_column (select_eq NIVEL level df)).

(** [d.get(k, 0)]. *)
Definition dict_get (d : gmap string float) (k : string) (dflt : float) : float :=
  default dflt (d !! k).

(** ** Chart descriptions *)

(** [go.Bar(x=..., y=..., name=...)]. *)
Record Bar := mkBar {
  bar_x : list string;
  bar_y : list float;
  bar_name : string
}.

(** The layout attributes [update_layout] sets; [None] is plotly's default. *)
Record Layout := mkLayout {
  title : option string;
  yaxis_title : option string;
  barmode : option string;
  xaxis_tickangle : option Z
}.

Record Figure := mkFigure {
  traces : list Bar;
  layout : Layout
}.

(** [go.Figure()]. *)
Definition go_Figure : Figure :=
  mkFigure [] (mkLayout None None None None).

Definition add_trace (fig : Figure) (b : Bar) : Figure :=
  mkFigure (traces fig ++ [b]) (layout fig).

Definition update_layout (fig : Figure) (t yt bm : string) (angle : Z) : Figure :=
  mkFigure (traces fig) (mkLayout (Some t) (Some yt) (Some bm) (Some angle)).

(** Lines 49-57: the figure [create_bar_chart] hands to [to_html]. *)
Definition bar_chart_figure (data1 data2 : gmap string float) (labels : list string)
    (t yt : string) : Figure :=
  let fig := go_Figure in
  let fig := add_trace fig
    (mkBar labels ((λ label, dict_get data1 label 0%float) <$> labels) "Juniors") in
  let fig := add_trace fig
    (mkBar labels ((λ label, dict_get data2 label 0%float) <$> labels) "Seniors") in
  update_layout fig t yt "group" (-45).

(** Lines 74-82: the figure [create_senior_comparison_chart] hands to [to_html]. *)
Definition senior_comparison_figure (data_senior_data data_senior_analytics : gmap string float)
    (categories : list string) (t yt : string) : Figure :=
  let fig := go_Figure in
  let fig := add_trace fig
    (mkBar categories ((λ cat, dict_get data_senior_data cat 0%float) <$> categories)
       "Data Engineers Senior") in
  let fig := add_trace fig
    (mkBar categories ((λ cat, dict_get data_senior_analytics cat 0%float) <$> categories)
       "Analytics Engineers Senior") in
  update_layout fig t yt "group" (-45).

(** ** Errors and the state of a run *)

(** The exceptions the model follows a run to.  [OSError path] is what
    [open(path, 'w')] raises for a path it cannot open: PermissionError,
    IsADirectoryError, or FileNotFoundError for a missing directory. *)
Inductive PyError :=
  | FileNotFoundError (path : string)
  | OSError (path : string)
  | TemplateError
  | ReferenceError.

(** What the script reads and changes while it runs.  DataFrames are
    objects held by reference: [frames] is the store and a reference is an
    index into it.  plotly draws a fresh random identifier (a uuid4) for
    each figure it renders: [drawn] counts the draws so far and the n-th
    draw is named by n, so no two calls share an identifier.  [plotted]
    records, oldest first, every figure handed to [to_html]. *)
Record World := mkWorld {
  files : gmap string string;
  readonly : gset string;
  frames : list DataFrame;
  drawn : N;
  plotted : list Figure
}.

Definition Py (A : Type) : Type := World → World * (PyError + A).

Definition ret {A} (a : A) : Py A := λ w, (w, inr a).

Definition raise {A} (e : PyError) : Py A := λ w, (w, inl e).

Definition bind {A B} (m : Py A) (k : A → Py B) : Py B :=
  λ w, match m w with
       | (w', inr a) => k a w'
       | (w', inl e) => (w', inl e)
       end.

Declare Scope py_scope.
Delimit Scope py_scope with py.
Notation "x <- m ;; k" := (bind m (λ x, k))
  (at level 100, m at next level, right associativity) : py_scope.
Notation "m ;;; k" := (bind m (λ _, k))
  (at level 100, right associativity) : py_scope.
Open Scope py_scope.

(** [open(path, 'r').read()]. *)
Definition open_read (path : string) : Py string :=
  λ w, match files w !! path with
       | Some content => (w, inr content)
       | None => (w, inl (FileNotFoundError path))
       end.

(** [open(path, 'w')] followed by [write(content)].  A path that cannot
    be opened for writing makes [open] raise, the file untouched;
    otherwise the file is created or overwritten with the content.  A
    write that fails once the file is open and emptied (disk full, text
    the locale's encoding cannot express) is outside the model. *)
Definition open_write (path content : string) : Py unit :=
  λ w, if decide (path ∈ readonly w)
       then (w, inl (OSError path))
       else (mkWorld (<[path := content]> (files w)) (readonly w)
                     (frames w) (drawn w) (plotted w), inr ()).

(** Reading the rows behind a DataFrame reference.  A Python name always
    refers to a live object; a reference outside the store ends the run. *)
Definition frame_rows (data : nat) : Py DataFrame :=
  λ w, match frames w !! data with
       | Some df => (w, inr df)
       | None => (w, inl ReferenceError)
       end.

(** A pandas operation that returns a new DataFrame object. *)
Definition frame_new (df : DataFrame) : Py nat :=
  λ w, (mkWorld (files w) (readonly w) (frames w ++ [df]) (drawn w) (plotted w),
        inr (length (frames w))).

(** [data[data[c] == v]]: boolean indexing builds a new DataFrame. *)
Definition getitem_eq (data : nat) (c : Column) (v : string) : Py nat :=
  df <- frame_rows data ;;
  frame_new (select_eq c v df).

(** Lines 7-18. *)
Definition read_template (template_path : string) : Py string :=
  open_read template_path.

(** Lines 20-33. *)
Definition calculate_mean_scores (data : nat) (level : string)
    (category_column : Column) : Py (gmap string float) :=
  filtered <- getitem_eq data NIVEL level ;;
  df <- frame_rows filtered ;;
  let mean_scores := to_dict (groupby_mean category_column df) in
  ret mean_scores.

Section Report.

(** plotly's [to_html(fig, full_html=False)]: the markup of a figure, given
    the element identifier the library draws for it. *)
Variable to_html : Figure → N → string.

(** jinja2's [Template(content).render] with its keyword arguments in call
    order; [None] when jinja2 raises. *)
Variable render : string → list (string * string) → option string.

Definition plotly_to_html (fig : Figure) : Py string :=
  λ w, (mkWorld (files w) (readonly w) (frames w) (N.succ (drawn w))
                (plotted w ++ [fig]),
        inr (to_html fig (drawn w))).

Definition jinja_render (content : string) (kwargs : list (string * string))
  : Py string :=
  match render content kwargs with
  | Some html => ret html
  | None => raise TemplateError
  end.

(** Lines 35-58. *)
Definition create_bar_chart (data1 data2 : gmap string float) (labels : list string)
    (title yaxis_title : string) : Py string :=
  plotly_to_html (bar_chart_figure data1 data2 labels title yaxis_title).

(** Lines 60-83. *)
Definition create_senior_comparison_chart
    (data_senior_data data_senior_analytics : gmap string float)
    (categories : list string) (title yaxis_title : string) : Py string :=
  plotly_to_html
    (senior_comparison_figure data_senior_data data_senior_analytics
       categories title yaxis_title).

(** Lines 85-150.  The script calls it with the default paths
    ["templates/template.html"] and
    ["engineering_insights_interactive_report.html"]. *)
Definition generate_interactive_report (data : nat)
    (template_path output_path : string) : Py string :=
  template_content <- read_template template_path ;;
  df <- frame_rows data ;;
  let categories := sorted (unique (column CATEGORIA <$> df)) in
  d <- getitem_eq data CARGO "ENGENHARIA DE DADOS" ;;
  junior_data <- calculate_mean_scores d "Junior" CATEGORIA ;;
  d <- getitem_eq data CARGO "ENGENHARIA DE DADOS" ;;
  senior_data <- calculate_mean_scores d "Sênior" CATEGORIA ;;
  d <- getitem_eq data CARGO "ENGENHARIA DE ANALYTICS" ;;
  junior_analytics <- calculate_mean_scores d "Junior" CATEGORIA ;;
  d <- getitem_eq data CARGO "ENGENHARIA DE ANALYTICS" ;;
  senior_analytics <- calculate_mean_scores d "Sênior" CATEGORIA ;;
  d <- getitem_eq data CARGO "ENGENHARIA DE DADOS" ;;
  pleno_data <- calculate_mean_scores d "Pleno" CATEGORIA ;;
  d <- getitem_eq data CARGO "ENGENHARIA DE ANALYTICS" ;;
  pleno_analytics <- calculate_mean_scores d "Pleno" CATEGORIA ;;
  junior_senior_chart_data <- create_bar_chart
    junior_data senior_data categories
    "Comparação de Pontuação Média: Juniors vs Seniors (Data Engineers)"
    "Pontuação Média" ;;
  pleno_senior_chart_data <- create_bar_chart
    pleno_data senior_data categories
    "Comparação de Pontuação Média: Plenos vs Seniors (Data Engineers)"
    "Pontuação Média" ;;
  junior_senior_chart_analytics <- create_bar_chart
    junior_analytics senior_analytics categories
    "Comparação de Pontuação Média: Juniors vs Seniors (Analytics Engineers)"
    "Pontuação Média" ;;
  pleno_senior_chart_analytics <- create_bar_chart
    pleno_analytics senior_analytics categories
    "Comparação de Pontuação Média: Plenos vs Seniors (Analytics Engineers)"
    "Pontuação Média" ;;
  senior_comparison_chart <- create_senior_comparison_chart
    senior_data senior_analytics categories
    "Comparação de Pontuação Média: Seniors (Data vs Analytics Engineers)"
    "Pontuação Média" ;;
  html_report <- jinja_render template_content
    [("junior_senior_chart_data", junior_senior_chart_data);
     ("pleno_senior_chart_data", pleno_senior_chart_data);
     ("junior_senior_chart_analytics", junior_senior_chart_analytics);
     ("pleno_senior_chart_analytics", pleno_senior_chart_analytics);
     ("senior_comparison_chart", senior_comparison_chart)] ;;
  open_write output_path html_report ;;;
  ret output_path.

End Report.

(** ** The run of the report, summarised

    What lines 101-134 compute from the rows [df] of the input table, as
    plain values: used to state what a run leaves in the state. *)

(** Line 101. *)
Definition report_categories (df : DataFrame) : list string :=
  sorted (unique (column CATEGORIA <$> df)).

(** One of lines 102-107: [calculate_mean_scores(data[data['CARGO'] == track], level)]. *)
Definition track_level_scores (df : DataFrame) (track level : string)
  : gmap string float :=
  mean_scores (select_eq CARGO track df) level CATEGORIA.

(** The (track, level) pairs of lines 102-107, in call order. *)
Definition report_filters : list (string * string) :=
  [("ENGENHARIA DE DADOS", "Junior");
   ("ENGENHARIA DE DADOS", "Sênior");
   ("ENGENHARIA DE ANALYTICS", "Junior");
   ("ENGENHARIA DE ANALYTICS", "Sênior");
   ("ENGENHARIA DE DADOS", "Pleno");
   ("ENGENHARIA DE ANALYTICS", "Pleno")].

(** The six score mappings of lines 102-107, in call order. *)
Definition report_scores (df : DataFrame) : list (gmap string float) :=
  (λ f, track_level_scores df f.1 f.2) <$> report_filters.

(** The DataFrame objects lines 102-107 create, in order: for each call the
    track selection made by the caller, then the level selection made
    inside [calculate_mean_scores]. *)
Definition report_frames (df : DataFrame) : list DataFrame :=
  f ← report_filters;
  [select_eq CARGO f.1 df; select_eq NIVEL f.2 (select_eq CARGO f.1 df)].

(** The five figures of lines 110-134, in call order. *)
Definition report_figures (df : DataFrame) : list Figure :=
  let categories := report_categories df in
  let junior_data := track_level_scores df "ENGENHARIA DE DADOS" "Junior" in
  let senior_data := track_level_scores df "ENGENHARIA DE DADOS" "Sênior" in
  let junior_analytics := track_level_scores df "ENGENHARIA DE ANALYTICS" "Junior" in
  let senior_analytics := track_level_scores df "ENGENHARIA DE ANALYTICS" "Sênior" in
  let pleno_data := track_level_scores df "ENGENHARIA DE DADOS" "Pleno" in
  let pleno_analytics := track_level_scores df "ENGENHARIA DE ANALYTICS" "Pleno" in
  [bar_chart_figure junior_data senior_data categories
     "Comparação de Pontuação Média: Juniors vs Seniors (Data Engineers)"
     "Pontuação Média";
   bar_chart_figure pleno_data senior_data categories
     "Comparação de Pontuação Média: Plenos vs Seniors (Data Engineers)"
     "Pontuação Média";
   bar_chart_figure junior_analytics senior_analytics categories
     "Comparação de Pontuação Média: Juniors vs Seniors (Analytics Engineers)"
     "Pontuação Média";
   bar_chart_figure pleno_analytics senior_analytics categories
     "Comparação de Pontuação Média: Plenos vs Seniors (Analytics Engineers)"
     "Pontuação Média";
   senior_comparison_figure senior_data senior_analytics categories
     "Comparação de Pontuação Média: Seniors (Data vs Analytics Engineers)"
     "Pontuação Média"].

(** The template variables of lines 139-143, in call order. *)
Definition report_placeholders : list string :=
  ["junior_senior_chart_data"; "pleno_senior_chart_data";
   "junior_senior_chart_analytics"; "pleno_senior_chart_analytics";
   "senior_comparison_chart"].

(** The keyword arguments of [template.render]: each placeholder bound to
    the markup of its figure, the [i]-th figure rendered with the
    identifier drawn [i] draws after [first]. *)
Definition report_kwargs (to_html : Figure → N → string) (df : DataFrame)
    (first : N) : list (string * string) :=
  zip report_placeholders
      (imap (λ i fig, to_html fig (first + N.of_nat i)%N) (report_figures df)).

(** The state a run leaves behind once the five charts are built. *)
Definition after_charts (w : World) (df : DataFrame) : World :=
  mkWorld (files w) (readonly w) (frames w ++ report_frames df)
          (drawn w + 5)%N (plotted w ++ report_figures df).

(** The same state with the report written. *)
Definition after_write (w : World) (df : DataFrame) (path html : string) : World :=
  mkWorld (<[path := html]> (files w)) (readonly w) (frames w ++ report_frames df)
          (drawn w + 5)%N (plotted w ++ report_figures df).

(** The state once [read_csv] has loaded the table [df]. *)
Definition loaded (w : World) (df : DataFrame) : World :=
  mkWorld (files w) (readonly w) (frames w ++ [df]) (drawn w) (plotted w).

(** ** The specification's vocabulary *)

(** The rows the specification's Aggregator keeps: level equal to the level
    filter and track equal to the track filter. *)
Definition matching_rows (table : DataFrame) (levelFilter trackFilter : string)
  : DataFrame :=
  filter (λ r, nivel r = levelFilter ∧ cargo r = trackFilter) table.

(** The rows of one category among [rows]. *)
Definition category_rows (rows : DataFrame) (k : string) : DataFrame :=
  filter (λ r, categoria r = k) rows.

(** Section 4.1 of the specification as it is worded: keep the rows that
    pass both tests in one step, and bind the category of each surviving
    row to the mean score of the surviving rows of that category. *)
Definition meanByCategory (table : DataFrame) (levelFilter trackFilter : string)
  : gmap string float :=
  let rows := matching_rows table levelFilter trackFilter in
  list_to_map
    ((λ r, (categoria r, mean (pontuacao <$> category_rows rows (categoria r))))
       <$> rows).

(** Section 4.2 of the specification: a series aligned to the category
    list, zero where the mapping has no entry. *)
Definition default_filled (d : gmap string float) (categories : list string)
    (ys : list float) : Prop :=
  length ys = length categories ∧
  ∀ i c, categories !! i = Some c →
         ys !! i = Some (match d !! c with Some v => v | None => 0%float end).

(** A figure with its series renamed, first to last. *)
Definition rename_series (names : list string) (fig : Figure) : Figure :=
  mkFigure
    (zip_with (λ n b, mkBar (bar_x b) (bar_y b) n) names (traces fig))
    (layout fig).


(** ** Sample inputs *)

Definition score (z : Z) : float := PrimFloat.of_uint63 (Uint63.of_Z z).

Definition sample_table : DataFrame :=
  [mkRow "Junior" "ENGENHARIA DE DADOS" "SQL" (score 10);
   mkRow "Junior" "ENGENHARIA DE DADOS" "SQL" (score 20);
   mkRow "Sênior" "ENGENHARIA DE ANALYTICS" "Python" (score 7);
   mkRow "Sênior" "ENGENHARIA DE DADOS" "Cloud" (score 9);
   mkRow "Pleno" "ENGENHARIA DE DADOS" "SQL" (score 4)].


(** A stand-in for plotly: like plotly it writes the identifier into the
    markup, here followed by the title. *)
Definition sample_to_html (fig : Figure) (id : N) : string :=
  "<div id=" +:+ pretty id +:+ ">" +:+ default "" (title (layout fig)) +:+ "</div>".

(** A stand-in for jinja2: the template followed by the bound values. *)
Definition sample_render (content : string) (kwargs : list (string * string))
  : option string :=
  Some (foldl (λ acc kv, acc +:+ kv.2) content kwargs).

Definition sample_world : World :=
  mkWorld {["templates/template.html" := "<html>"]} ∅ [sample_table] 0 [].

(** The same, with no template on disk and an earlier report in place. *)
Definition sample_world_no_template : World :=
  mkWorld {["engineering_insights_interactive_report.html" := "old"]} ∅
          [sample_table] 0 [].

(** A later state of the same session: the same template and table, the
    table behind another reference, other files on disk, identifiers
    already drawn and a figure already plotted. *)
Definition sample_world_later : World :=
  mkWorld {["templates/template.html" := "<html>"; "notes.txt" := "draft"]} ∅
          [[]; sample_table] 7 [go_Figure].


(** The same as [sample_world], with an empty table loaded. *)
Definition sample_world_empty : World :=
  mkWorld {["templates/template.html" := "<html>"]} ∅ [[]] 0 [].

(** ** The script *)

(** How the script as a whole can end: with an exception of a run, or with
    the exception pandas raises on a file that is not a table. *)
Inductive ScriptError :=
  | Uncaught (e : PyError)
  | ParserError.

Section Script.

Variable to_html : Figure → N → string.
Variable render : string → list (string * string) → option string.

(** pandas' parser on the text of a file: [Some df] when it reads the text
    as a table with the four columns of the script, labels as strings and
    scores as numbers; [None] when it raises.  A text it reads as a table
    of another shape (a column missing, labels read as numbers) is
    outside the model. *)
Variable parse_csv : string → option DataFrame.

(** [pd.read_csv(path)]: a new DataFrame object from the file at [path]. *)
Definition read_csv (path : string) : World → World * (ScriptError + nat) :=
  λ w, match files w !! path with
       | None => (w, inl (Uncaught (FileNotFoundError path)))
       | Some text =>
           match parse_csv text with
           | None => (w, inl ParserError)
           | Some df =>
               match frame_new df w with
               | (w', inr data) => (w', inr data)
               | (w', inl e) => (w', inl (Uncaught e))
               end
           end
       end.

(** Lines 155-157: load the table, then build the report with the default
    paths of [generate_interactive_report]; the path it returns is dropped. *)
Definition script : World → World * (ScriptError + unit) :=
  λ w, match read_csv "data/data.csv" w with
       | (w1, inl e) => (w1, inl e)
       | (w1, inr df) =>
           match generate_interactive_report to_html render df
                   "templates/template.html"
                   "engineering_insights_interactive_report.html" w1 with
           | (w2, inl e) => (w2, inl (Uncaught e))
           | (w2, inr _) => (w2, inr ())
           end
       end.

End Script.

(** A stand-in for pandas' parser: one known text, anything else refused. *)
Definition sample_parse_csv (text : string) : option DataFrame :=
  if decide (text = "NIVEL,CARGO,CATEGORIA,PONTUACAO") then Some [] else None.

(** A disk with the data file and the template, nothing loaded yet. *)
Definition sample_disk : World :=
  mkWorld {["data/data.csv" := "NIVEL,CARGO,CATEGORIA,PONTUACAO";
            "templates/template.html" := "<html>"]} ∅ [] 0 [].

(** A disk with the template only. *)
Definition sample_disk_no_data : World :=
  mkWorld {["templates/template.html" := "<html>"]} ∅ [] 0 [].

(** [sample_world] with the output path write-protected. *)
Definition sample_world_readonly : World :=
  mkWorld {["templates/template.html" := "<html>"]} {["out.html"]}
          [sample_table] 0 [].

(** [sample_table] with one more row, its level spelled without the accent. *)
Definition sample_table_typo : DataFrame :=
  (sample_table ++ [mkRow "Senior" "ENGENHARIA DE DADOS" "Spark" (score 8)])%list.

Definition sample_world_typo : World :=
  mkWorld {["templates/template.html" := "<html>"]} ∅ [sample_table_typo] 0 [].

(** ** Facts about the pandas operations *)

Lemma elem_of_unique (l : list string) (x : string) : x ∈ unique l ↔ x ∈ l.
Proof.
  induction l as [|y l IH]; simpl; [done|].
  rewrite !elem_of_cons, list_elem_of_filter, IH.
  destruct (decide (x = y)); naive_solver.
Qed.

Lemma NoDup_unique (l : list string) : NoDup (unique l).
Proof.
  induction l as [|y l IH]; simpl; [constructor|].
  constructor.
  - rewrite list_elem_of_filter. naive_solver.
  - by apply list.NoDup_filter.
Qed.

Lemma sorted_Permutation (l : list string) : sorted l ≡ₚ l.
Proof. apply merge_sort_Permutation. Qed.

Lemma elem_of_sorted (l : list string) (x : string) : x ∈ sorted l ↔ x ∈ l.
Proof. by rewrite sorted_Permutation. Qed.

Lemma Sorted_sorted (l : list string) : Sorted String.le (sorted l).
Proof. apply (Sorted_merge_sort String.le). Qed.

Lemma sorted_Permutation_eq (l1 l2 : list string) :
  l1 ≡ₚ l2 → sorted l1 = sorted l2.
Proof.
  intros Hp. apply (Sorted_unique String.le); try apply Sorted_sorted.
  by rewrite !sorted_Permutation.
Qed.

(** Two lists with the same elements have the same sorted distinct values. *)
Lemma sorted_unique_ext (l1 l2 : list string) :
  (∀ x, x ∈ l1 ↔ x ∈ l2) → sorted (unique l1) = sorted (unique l2).
Proof.
  intros Hx. apply sorted_Permutation_eq.
  apply NoDup_Permutation; try apply NoDup_unique.
  intros x. by rewrite !elem_of_unique.
Qed.

Lemma groupby_mean_keys (c : Column) (df : DataFrame) :
  (groupby_mean c df).*1 = sorted (unique (column c <$> df)).
Proof.
  unfold groupby_mean, groupby. rewrite <- !list_fmap_compose.
  rewrite <- (list_fmap_id (sorted _)) at 2. by apply list_fmap_ext.
Qed.

Lemma NoDup_groupby_mean_keys (c : Column) (df : DataFrame) :
  NoDup (groupby_mean c df).*1.
Proof.
  rewrite groupby_mean_keys, sorted_Permutation. apply NoDup_unique.
Qed.

Lemma elem_of_groupby_mean_keys (c : Column) (df : DataFrame) (k : string) :
  k ∈ (groupby_mean c df).*1 ↔ ∃ r, r ∈ df ∧ column c r = k.
Proof.
  rewrite groupby_mean_keys, elem_of_sorted, elem_of_unique, list_elem_of_fmap.
  naive_solver.
Qed.

(** Reading the dict of group means at a key. *)
Lemma to_dict_groupby_mean_Some (c : Column) (df : DataFrame) (k : string) :
  (∃ r, r ∈ df ∧ column c r = k) →
  to_dict (groupby_mean c df) !! k = Some (mean (pontuacao <$> select_eq c k df)).
Proof.
  intros Hk. unfold to_dict.
  apply elem_of_list_to_map_1; [apply NoDup_groupby_mean_keys|].
  unfold groupby_mean, groupby. rewrite <- list_fmap_compose.
  apply list_elem_of_fmap. exists k. split; [done|].
  rewrite elem_of_sorted, elem_of_unique, list_elem_of_fmap. naive_solver.
Qed.

Lemma to_dict_groupby_mean_None (c : Column) (df : DataFrame) (k : string) :
  (∀ r, r ∈ df → column c r ≠ k) →
  to_dict (groupby_mean c df) !! k = None.
Proof.
  intros Hk. unfold to_dict. apply not_elem_of_list_to_map_1.
  rewrite elem_of_groupby_mean_keys. naive_solver.
Qed.


(** Filtering on the track and then on the level keeps the rows that pass
    both tests. *)
Lemma select_eq_NIVEL_CARGO (df : DataFrame) (level track : string) :
  select_eq NIVEL level (select_eq CARGO track df)
  = filter (λ r, nivel r = level ∧ cargo r = track) df.
Proof.
  exact (list_filter_filter (λ r, column NIVEL r = level)
           (λ r, column CARGO r = track) df).
Qed.

(** A dict built from (key, value-of-key) pairs is read by key. *)
Lemma list_to_map_keyed {A} (key : A → string) (g : string → float) (l : list A)
    (k : string) :
  (list_to_map ((λ a, (key a, g (key a))) <$> l) : gmap string float) !! k
  = if decide (k ∈ key <$> l) then Some (g k) else None.
Proof.
  induction l as [|a l IH].
  - rewrite fmap_nil, list_to_map_nil, lookup_empty.
    case_decide as Hin; [|done]. by apply not_elem_of_nil in Hin.
  - rewrite !fmap_cons.
    rewrite list_to_map_cons.
    destruct (decide (key a = k)) as [->|Hne].
    + rewrite lookup_insert_eq.
      destruct (decide (k ∈ k :: (key <$> l))) as [|Hin]; [done|].
      exfalso. apply Hin, list_elem_of_here.
    + rewrite lookup_insert_ne by done. rewrite IH.
      destruct (decide (k ∈ key <$> l)) as [Hin|Hin];
        destruct (decide (k ∈ key a :: (key <$> l))) as [Hin'|Hin']; try done.
      * exfalso. by apply Hin', list_elem_of_further.
      * apply elem_of_cons in Hin'. naive_solver.
Qed.

(** The dict line 32 builds from rows filtered on track and then level is
    the mapping the specification describes. *)
Lemma track_level_scores_meanByCategory (df : DataFrame) (track level : string) :
  track_level_scores df track level = meanByCategory df level track.
Proof.
  unfold track_level_scores, mean_scores, meanByCategory.
  rewrite select_eq_NIVEL_CARGO. fold (matching_rows df level track).
  set (rows := matching_rows df level track).
  apply map_eq. intros k.
  rewrite (list_to_map_keyed categoria
             (λ c, mean (pontuacao <$> category_rows rows c)) rows k).
  destruct (decide (k ∈ categoria <$> rows)) as [Hin|Hin].
  - apply to_dict_groupby_mean_Some.
    apply list_elem_of_fmap in Hin as (r & -> & Hr). by exists r.
  - apply to_dict_groupby_mean_None. intros r Hr Hk. apply Hin.
    apply list_elem_of_fmap. by exists r.
Qed.

Lemma meanByCategory_lookup (table : DataFrame) (level track k : string) :
  meanByCategory table level track !! k
  = if decide (k ∈ categoria <$> matching_rows table level track)
    then Some (mean (pontuacao <$>
                       category_rows (matching_rows table level track) k))
    else None.
Proof.
  unfold meanByCategory.
  apply (list_to_map_keyed categoria
           (λ c, mean (pontuacao <$>
                         category_rows (matching_rows table level track) c))).
Qed.


(** [String.le] is the lexicographic order on the characters' codes. *)
Lemma string_le_nil (s : string) : String.le "" s.
Proof. by destruct s. Qed.

Lemma string_le_cons_nil (a : Ascii.ascii) (s : string) : ¬ String.le (String a s) "".
Proof. unfold String.le. simpl. tauto. Qed.

Lemma string_le_cons (a b : Ascii.ascii) (s t : string) :
  String.le (String a s) (String b t)
  ↔ (Ascii.N_of_ascii a < Ascii.N_of_ascii b)%N ∨ (a = b ∧ String.le s t).
Proof.
  unfold String.le, String.leb. simpl. unfold Ascii.compare.
  destruct (N.compare_spec (Ascii.N_of_ascii a) (Ascii.N_of_ascii b)) as [Heq|Hlt|Hgt].
  - assert (a = b) as ->.
    { by rewrite <- (Ascii.ascii_N_embedding a), Heq, Ascii.ascii_N_embedding. }
    split; [by right|]. intros [?|[_ ?]]; [lia|done].
  - split; [by left|done].
  - split; [done|]. intros [?|[-> _]]; lia.
Qed.

(** [mean] in the primitive float operations. *)
Lemma mean_unfold (xs : list float) :
  mean xs
  = let '(sumx, _, nobs) :=
      fold_left
        (λ acc val,
           let '(sumx, compensation, nobs) := acc in
           if PrimFloat.eqb val val then
             let y := PrimFloat.sub val compensation in
             let t := PrimFloat.add sumx y in
             let c := PrimFloat.sub (PrimFloat.sub t sumx) y in
             (t, if PrimFloat.eqb c c then c else 0%float, Z.succ nobs)
           else (sumx, compensation, nobs))
        xs (0%float, 0%float, 0%Z) in
    if (nobs =? 0)%Z then nan
    else PrimFloat.div sumx (PrimFloat.of_uint63 (Uint63.of_Z nobs)).
Proof. reflexivity. Qed.

(** ** Running the stateful operations *)

Lemma bind_ok {A B} (m : Py A) (k : A → Py B) (w w' : World) (a : A) :
  m w = (w', inr a) → bind m k w = k a w'.
Proof. intros Hm. unfold bind. by rewrite Hm. Qed.

Lemma bind_err {A B} (m : Py A) (k : A → Py B) (w w' : World) (e : PyError) :
  m w = (w', inl e) → bind m k w = (w', inl e).
Proof. intros Hm. unfold bind. by rewrite Hm. Qed.

Lemma frame_rows_ok (data : nat) (df : DataFrame) (w : World) :
  frames w !! data = Some df → frame_rows data w = (w, inr df).
Proof. intros Hd. unfold frame_rows. by rewrite Hd. Qed.

Lemma getitem_eq_ok (data : nat) (c : Column) (v : string) (df : DataFrame)
    (w : World) :
  frames w !! data = Some df →
  getitem_eq data c v w
  = (mkWorld (files w) (readonly w) (frames w ++ [select_eq c v df])
             (drawn w) (plotted w),
     inr (length (frames w))).
Proof.
  intros Hd. unfold getitem_eq. by rewrite (bind_ok _ _ _ _ _ (frame_rows_ok _ _ _ Hd)).
Qed.

Lemma calculate_mean_scores_ok (data : nat) (level : string) (c : Column)
    (df : DataFrame) (w : World) :
  frames w !! data = Some df →
  calculate_mean_scores data level c w
  = (mkWorld (files w) (readonly w) (frames w ++ [select_eq NIVEL level df])
             (drawn w) (plotted w),
     inr (mean_scores df level c)).
Proof.
  intros Hd. unfold calculate_mean_scores.
  rewrite (bind_ok _ _ _ _ _ (getitem_eq_ok _ NIVEL level _ _ Hd)).
  unfold bind, frame_rows. simpl.
  by rewrite list_lookup_middle.
Qed.

(** One of lines 102-107 as a whole. *)
Lemma track_level_scores_ok (data : nat) (track level : string)
    (df : DataFrame) (w : World) :
  frames w !! data = Some df →
  (d <- getitem_eq data CARGO track ;; calculate_mean_scores d level CATEGORIA) w
  = (mkWorld (files w) (readonly w)
             (frames w ++ [select_eq CARGO track df;
                           select_eq NIVEL level (select_eq CARGO track df)])
             (drawn w) (plotted w),
     inr (track_level_scores df track level)).
Proof.
  intros Hd. rewrite (bind_ok _ _ _ _ _ (getitem_eq_ok _ CARGO track _ _ Hd)).
  rewrite (calculate_mean_scores_ok _ level CATEGORIA (select_eq CARGO track df)).
  - simpl. by rewrite <- app_assoc.
  - simpl. by rewrite list_lookup_middle.
Qed.

(** The same step followed by the rest of the run. *)
Lemma track_level_scores_step {B} (data : nat) (track level : string)
    (df : DataFrame) (w : World) (k : gmap string float → Py B) :
  frames w !! data = Some df →
  (d <- getitem_eq data CARGO track ;;
   scores <- calculate_mean_scores d level CATEGORIA ;;
   k scores) w
  = k (track_level_scores df track level)
      (mkWorld (files w) (readonly w)
               (frames w ++ [select_eq CARGO track df;
                             select_eq NIVEL level (select_eq CARGO track df)])
               (drawn w) (plotted w)).
Proof.
  intros Hd. pose proof (track_level_scores_ok data track level df w Hd) as Hrun.
  unfold bind in *.
  destruct (getitem_eq data CARGO track w) as [w1 [e|d]]; [done|].
  by rewrite Hrun.
Qed.

Section ReportRun.

Variable to_html : Figure → N → string.
Variable render : string → list (string * string) → option string.

Lemma plotly_to_html_ok (fig : Figure) (w : World) :
  plotly_to_html to_html fig w
  = (mkWorld (files w) (readonly w) (frames w) (N.succ (drawn w))
             (plotted w ++ [fig]),
     inr (to_html fig (drawn w))).
Proof. reflexivity. Qed.

(** A run that finds no template stops there, with the state as it was. *)
Lemma generate_interactive_report_no_template (data : nat)
    (template_path output_path : string) (w : World) :
  files w !! template_path = None →
  generate_interactive_report to_html render data template_path output_path w
  = (w, inl (FileNotFoundError template_path)).
Proof.
  intros Hf. unfold generate_interactive_report.
  apply bind_err. unfold read_template, open_read. by rewrite Hf.
Qed.

(** A run that finds the template and the table: the state after the
    charts, and then the outcome of rendering and writing. *)
Lemma generate_interactive_report_run (data : nat)
    (template_path output_path content : string) (df : DataFrame) (w : World) :
  files w !! template_path = Some content →
  frames w !! data = Some df →
  generate_interactive_report to_html render data template_path output_path w
  = match render content (report_kwargs to_html df (drawn w)) with
    | None => (after_charts w df, inl TemplateError)
    | Some html =>
        if decide (output_path ∈ readonly w)
        then (after_charts w df, inl (OSError output_path))
        else (after_write w df output_path html, inr output_path)
    end.
Proof.
  intros Hf Hd. unfold generate_interactive_report.
  rewrite (bind_ok _ _ w w content)
    by (unfold read_template, open_read; by rewrite Hf).
  rewrite (bind_ok _ _ _ _ _ (frame_rows_ok _ _ _ Hd)).
  cbv zeta.
  do 6 (rewrite (track_level_scores_step data _ _ df);
        [|repeat apply lookup_app_l_Some; exact Hd];
        cbn [files readonly frames drawn plotted]).
  unfold create_bar_chart, create_senior_comparison_chart.
  do 5 (rewrite (bind_ok _ _ _ _ _ (plotly_to_html_ok _ _));
        cbn [files readonly frames drawn plotted]).
  match goal with
  | |- bind (jinja_render _ _ ?kw) _ ?w1 = _ =>
      replace kw with (report_kwargs to_html df (drawn w));
      [replace w1 with (after_charts w df)|]
  end.
  - unfold bind, jinja_render.
    destruct (render content _) as [html|]; [|done].
    unfold ret, open_write. cbn [files readonly frames drawn plotted after_charts].
    by destruct (decide (output_path ∈ readonly w)).
  - unfold after_charts. f_equal.
    + by rewrite <- !app_assoc.
    + lia.
    + by rewrite <- !app_assoc.
  - unfold report_kwargs. simpl. repeat f_equal; lia.
Qed.

(** A run that finds the template but no table behind its reference. *)
Lemma generate_interactive_report_no_table (data : nat)
    (template_path output_path content : string) (w : World) :
  files w !! template_path = Some content →
  frames w !! data = None →
  generate_interactive_report to_html render data template_path output_path w
  = (w, inl ReferenceError).
Proof.
  intros Hf Hd. unfold generate_interactive_report.
  rewrite (bind_ok _ _ w w content)
    by (unfold read_template, open_read; by rewrite Hf).
  apply bind_err. unfold frame_rows. by rewrite Hd.
Qed.

(** What a run that reaches the charts leaves in the state, however the
    rendering and the writing end. *)
Lemma generate_interactive_report_state (data : nat)
    (template_path output_path content : string) (df : DataFrame) (w : World) :
  files w !! template_path = Some content →
  frames w !! data = Some df →
  let w' := (generate_interactive_report to_html render data
               template_path output_path w).1 in
  frames w' = (frames w ++ report_frames df)%list
  ∧ plotted w' = (plotted w ++ report_figures df)%list
  ∧ drawn w' = (drawn w + 5)%N
  ∧ readonly w' = readonly w.
Proof.
  intros Hf Hd.
  rewrite (generate_interactive_report_run _ _ _ _ _ _ Hf Hd).
  destruct (render content _) as [html|]; [|done].
  by destruct (decide (output_path ∈ readonly w)).
Qed.

(** A run that succeeds has written the rendered template. *)
Lemma generate_interactive_report_written (data : nat)
    (template_path output_path content p : string) (df : DataFrame) (w : World) :
  files w !! template_path = Some content →
  frames w !! data = Some df →
  (generate_interactive_report to_html render data
     template_path output_path w).2 = inr p →
  files (generate_interactive_report to_html render data
           template_path output_path w).1 !! output_path
  = render content (report_kwargs to_html df (drawn w)).
Proof.
  intros Hf Hd.
  rewrite (generate_interactive_report_run _ _ _ _ _ _ Hf Hd).
  destruct (render content _) as [html|]; [|done].
  destruct (decide (output_path ∈ readonly w)); [done|].
  intros _. simpl. by rewrite lookup_insert_eq.
Qed.

End ReportRun.

(** ** The Aggregator *)




(** The scenario of the specification: two entry-level rows of one track
    and one category, scored 10 and 20, average to 15. *)
Example mean_scores_two_rows :
  track_level_scores sample_table "ENGENHARIA DE DADOS" "Junior" !! "SQL"
  = Some 15%float.
Proof.
  rewrite track_level_scores_meanByCategory, meanByCategory_lookup.
  rewrite decide_True by (vm_compute; apply list_elem_of_here).
  vm_compute. reflexivity.
Qed.

(** [mean] on known inputs: rounding, compensation, a missing score, an
    infinite score, no score at all. *)
Example mean_examples :
  mean [1; 1; 2]%float = 0x1.5555555555555p+0%float
  ∧ mean [0x1.999999999999ap-4; 0x1.999999999999ap-4; 0x1.999999999999ap-4]%float
    = 0x1.999999999999bp-4%float
  ∧ mean [1e16; 1; 1]%float = 3333333333333334%float
  ∧ mean [0x1p+63; 0x1p+63]%float = 0x1p+63%float
  ∧ mean [nan; 3]%float = 3%float
  ∧ mean [infinity; 3]%float = infinity
  ∧ PrimFloat.eqb (mean [nan]) (mean [nan]) = false
  ∧ PrimFloat.eqb (mean []) (mean []) = false.
Proof. vm_compute. repeat split. Qed.

(** C4.  The rows that reach an aggregation are those whose level equals
    the level filter and whose track equals the track filter: the
    assembler selects on the track, [calculate_mean_scores] then selects on
    the level, and the two selections in a row keep what one selection on
    the conjunction keeps; the mapping returned is the specification's
    [meanByCategory], computed from those rows. *)
Theorem successive_filters_are_conjunction (w : World) (data : nat)
    (df : DataFrame) (track level : string) :
  frames w !! data = Some df →
  select_eq NIVEL level (select_eq CARGO track df) = matching_rows df level track
  ∧ (∀ r, r ∈ select_eq NIVEL level (select_eq CARGO track df)
          ↔ r ∈ df ∧ nivel r = level ∧ cargo r = track)
  ∧ ∃ w',
      (d <- getitem_eq data CARGO track ;;
       calculate_mean_scores d level CATEGORIA) w
      = (w', inr (meanByCategory df level track))
      ∧ frames w' = (frames w ++ [select_eq CARGO track df;
                                  matching_rows df level track])%list.
Proof.
  intros Hd. split; [apply select_eq_NIVEL_CARGO|]. split.
  - intros r. unfold select_eq. rewrite !list_elem_of_filter. simpl. tauto.
  - eexists. rewrite (track_level_scores_ok _ _ _ _ _ Hd).
    rewrite track_level_scores_meanByCategory, select_eq_NIVEL_CARGO.
    split; reflexivity.
Qed.

Lemma successive_filters_are_conjunction_witness :
  frames sample_world !! 0%nat = Some sample_table ∧
  select_eq NIVEL "Sênior" (select_eq CARGO "ENGENHARIA DE DADOS" sample_table)
  = matching_rows sample_table "Sênior" "ENGENHARIA DE DADOS".
Proof.
  split; [reflexivity|].
  apply (successive_filters_are_conjunction sample_world 0 sample_table
           "ENGENHARIA DE DADOS" "Sênior").
  reflexivity.
Defined.

(** ** The Chart Builder *)

Lemma default_filled_get (d : gmap string float) (categories : list string) :
  default_filled d categories ((λ c, dict_get d c 0%float) <$> categories).
Proof.
  split; [apply length_fmap|].
  intros i c Hi. rewrite list_lookup_fmap, Hi. reflexivity.
Qed.

Section ChartBuilder.

Variable to_html : Figure → N → string.

(** C2.  For every pair of score mappings and every ordered category list,
    the chart built by either constructor has two series; each is as long
    as the category list and holds, at each index, the mapping's value for
    the category at that index, or zero when the mapping has no entry. *)
Theorem chart_series_default_fill (data1 data2 : gmap string float)
    (categories : list string) (t yt : string) (w : World) :
  let bars := bar_chart_figure data1 data2 categories t yt in
  let seniors := senior_comparison_figure data1 data2 categories t yt in
  (create_bar_chart to_html data1 data2 categories t yt w).2
  = inr (to_html bars (drawn w))
  ∧ (create_senior_comparison_chart to_html data1 data2 categories t yt w).2
    = inr (to_html seniors (drawn w))
  ∧ Forall (λ fig, ∃ b1 b2,
              traces fig = [b1; b2]
              ∧ default_filled data1 categories (bar_y b1)
              ∧ default_filled data2 categories (bar_y b2))
           [bars; seniors].
Proof.
  repeat split.
  repeat constructor; eexists _, _; (split; [reflexivity|]);
    split; apply default_filled_get.
Qed.

(** C10.  On the same arguments [create_senior_comparison_chart] builds the
    chart of [create_bar_chart] with the two series renamed: same x values,
    same y values, same layout, grouped bars and a tick angle of -45. *)
Theorem senior_comparison_same_chart (data1 data2 : gmap string float)
    (categories : list string) (t yt : string) (w : World) :
  let bars := bar_chart_figure data1 data2 categories t yt in
  let seniors := senior_comparison_figure data1 data2 categories t yt in
  seniors
  = rename_series ["Data Engineers Senior"; "Analytics Engineers Senior"] bars
  ∧ bar_name <$> traces bars = ["Juniors"; "Seniors"]
  ∧ bar_name <$> traces seniors
    = ["Data Engineers Senior"; "Analytics Engineers Senior"]
  ∧ bar_x <$> traces seniors = bar_x <$> traces bars
  ∧ bar_y <$> traces seniors = bar_y <$> traces bars
  ∧ layout seniors = layout bars
  ∧ barmode (layout seniors) = Some "group"
  ∧ xaxis_tickangle (layout seniors) = Some (-45)%Z
  ∧ create_senior_comparison_chart to_html data1 data2 categories t yt w
    = plotly_to_html to_html
        (rename_series ["Data Engineers Senior"; "Analytics Engineers Senior"] bars) w
  ∧ create_bar_chart to_html data1 data2 categories t yt w
    = plotly_to_html to_html bars w.
Proof. repeat split. Qed.

End ChartBuilder.

(** The scenario of the specification: a category present only for the
    senior rows of one track gets a zero bar in the other track's series
    of the fifth chart. *)
Example senior_chart_zero_bar :
  let senior_data := track_level_scores sample_table "ENGENHARIA DE DADOS" "Sênior" in
  let senior_analytics :=
    track_level_scores sample_table "ENGENHARIA DE ANALYTICS" "Sênior" in
  report_categories sample_table = ["Cloud"; "Python"; "SQL"]
  ∧ senior_data !! "Python" = None
  ∧ bar_y <$>
      traces (senior_comparison_figure senior_data senior_analytics
                (report_categories sample_table) "" "")
    = [[9; 0; 0]; [0; 7; 0]]%float.
Proof. vm_compute. repeat split. Qed.

(** ** The Report Assembler *)

Lemma Sorted_report_categories (df : DataFrame) :
  Sorted String.le (report_categories df).
Proof. apply Sorted_sorted. Qed.

Lemma NoDup_report_categories (df : DataFrame) : NoDup (report_categories df).
Proof. unfold report_categories. rewrite sorted_Permutation. apply NoDup_unique. Qed.

Lemma elem_of_report_categories (df : DataFrame) (c : string) :
  c ∈ report_categories df ↔ ∃ r, r ∈ df ∧ categoria r = c.
Proof.
  unfold report_categories.
  rewrite elem_of_sorted, elem_of_unique, list_elem_of_fmap. naive_solver.
Qed.

(** The axis is the only sorted duplicate-free list of the table's categories. *)
Lemma report_categories_unique (df : DataFrame) (l : list string) :
  Sorted String.le l → NoDup l →
  (∀ c, c ∈ l ↔ ∃ r, r ∈ df ∧ categoria r = c) →
  l = report_categories df.
Proof.
  intros Hs Hn Hl.
  apply (Sorted_unique String.le); [done|apply Sorted_report_categories|].
  apply NoDup_Permutation; [done|apply NoDup_report_categories|].
  intros c. by rewrite Hl, elem_of_report_categories.
Qed.

Lemma report_categories_Permutation (df1 df2 : DataFrame) :
  df1 ≡ₚ df2 → report_categories df1 = report_categories df2.
Proof.
  intros Hp. apply sorted_unique_ext. intros c. by rewrite Hp.
Qed.

Lemma report_figures_axis (df : DataFrame) :
  Forall (λ fig, Forall (λ b, bar_x b = report_categories df) (traces fig))
         (report_figures df).
Proof. repeat constructor. Qed.

Section Assembler.

Variable to_html : Figure → N → string.
Variable render : string → list (string * string) → option string.

(** C3.  The category axis of a run is the sorted list of the distinct
    category values of the whole table, in the lexicographic order
    [String.le]: it is sorted, has no duplicate, holds exactly the
    categories of the table's rows, and is the only such list; it does not
    change when the rows are permuted; and each series of each of the five
    figures the run plots has this one list as its x values. *)
Theorem category_axis_order (w : World) (data : nat)
    (template_path output_path content : string) (df : DataFrame) :
  files w !! template_path = Some content →
  frames w !! data = Some df →
  let categories := report_categories df in
  Sorted String.le categories
  ∧ NoDup categories
  ∧ (∀ c, c ∈ categories ↔ ∃ r, r ∈ df ∧ categoria r = c)
  ∧ (∀ l, Sorted String.le l → NoDup l →
          (∀ c, c ∈ l ↔ ∃ r, r ∈ df ∧ categoria r = c) → l = categories)
  ∧ (∀ df', df' ≡ₚ df → report_categories df' = categories)
  ∧ ∃ figs,
      plotted (generate_interactive_report to_html render data
                 template_path output_path w).1
      = (plotted w ++ figs)%list
      ∧ length figs = 5%nat
      ∧ Forall (λ fig, Forall (λ b, bar_x b = categories) (traces fig)) figs.
Proof.
  intros Hf Hd categories.
  split; [apply Sorted_report_categories|].
  split; [apply NoDup_report_categories|].
  split; [apply elem_of_report_categories|].
  split; [apply report_categories_unique|].
  split; [intros df'; apply report_categories_Permutation|].
  exists (report_figures df).
  destruct (generate_interactive_report_state to_html render data
              template_path output_path content df w Hf Hd) as (_ & Hp & _).
  split; [exact Hp|]. split; [reflexivity|apply report_figures_axis].
Qed.

(** C6.  When there is no file at the template path the run ends with a
    file-not-found error and the state is as it was before the run: no
    DataFrame selected, no figure plotted, and every path, the output path
    included, holding what it held. *)
Theorem missing_template_aborts (w : World) (data : nat)
    (template_path output_path : string) :
  files w !! template_path = None →
  let r := generate_interactive_report to_html render data
             template_path output_path w in
  r = (w, inl (FileNotFoundError template_path))
  ∧ files r.1 !! output_path = files w !! output_path
  ∧ files r.1 = files w
  ∧ frames r.1 = frames w
  ∧ plotted r.1 = plotted w.
Proof.
  intros Hf r. subst r.
  by rewrite (generate_interactive_report_no_template _ _ _ _ _ _ Hf).
Qed.

(** C8.  No operation of the pipeline changes the table it is given: after
    a selection, after [calculate_mean_scores] and after a whole run,
    however it ends, the reference of the input table, like every
    reference that existed before, still holds the same rows. *)
Theorem table_never_mutated (w : World) (data : nat)
    (template_path output_path : string) (df : DataFrame) :
  frames w !! data = Some df →
  (∀ c v, frames (getitem_eq data c v w).1 !! data = Some df)
  ∧ (∀ level c, frames (calculate_mean_scores data level c w).1 !! data = Some df)
  ∧ frames (generate_interactive_report to_html render data
              template_path output_path w).1 !! data = Some df
  ∧ (∀ l t, frames w !! l = Some t →
            frames (generate_interactive_report to_html render data
                      template_path output_path w).1 !! l = Some t).
Proof.
  intros Hd.
  assert (∀ l t, frames w !! l = Some t →
            frames (generate_interactive_report to_html render data
                      template_path output_path w).1 !! l = Some t) as Hrun.
  { intros l t Hl. destruct (files w !! template_path) as [content|] eqn:Hf.
    - destruct (generate_interactive_report_state to_html render data
                  template_path output_path content df w Hf Hd) as (-> & _).
      by apply lookup_app_l_Some.
    - by rewrite (generate_interactive_report_no_template _ _ _ _ _ _ Hf). }
  split; [|split; [|split]].
  - intros c v. rewrite (getitem_eq_ok _ _ _ _ _ Hd). simpl.
    by apply lookup_app_l_Some.
  - intros level c. rewrite (calculate_mean_scores_ok _ _ _ _ _ Hd). simpl.
    by apply lookup_app_l_Some.
  - by apply Hrun.
  - exact Hrun.
Qed.

(** C9.  The two series of a chart built by [create_bar_chart] are named
    Juniors and Seniors whatever the arguments, so the second and fourth
    figures of a run, which compare the mid level (Pleno) with the senior
    level, carry these two names too. *)
Theorem bar_chart_names_fixed (w : World) (data : nat)
    (template_path output_path content : string) (df : DataFrame) :
  files w !! template_path = Some content →
  frames w !! data = Some df →
  (∀ data1 data2 labels t yt,
     bar_name <$> traces (bar_chart_figure data1 data2 labels t yt)
     = ["Juniors"; "Seniors"])
  ∧ ∃ f1 f2 f3 f4 f5,
      plotted (generate_interactive_report to_html render data
                 template_path output_path w).1
      = (plotted w ++ [f1; f2; f3; f4; f5])%list
      ∧ f2 = bar_chart_figure
               (track_level_scores df "ENGENHARIA DE DADOS" "Pleno")
               (track_level_scores df "ENGENHARIA DE DADOS" "Sênior")
               (report_categories df)
               "Comparação de Pontuação Média: Plenos vs Seniors (Data Engineers)"
               "Pontuação Média"
      ∧ bar_name <$> traces f2 = ["Juniors"; "Seniors"]
      ∧ f4 = bar_chart_figure
               (track_level_scores df "ENGENHARIA DE ANALYTICS" "Pleno")
               (track_level_scores df "ENGENHARIA DE ANALYTICS" "Sênior")
               (report_categories df)
               "Comparação de Pontuação Média: Plenos vs Seniors (Analytics Engineers)"
               "Pontuação Média"
      ∧ bar_name <$> traces f4 = ["Juniors"; "Seniors"].
Proof.
  intros Hf Hd. split; [reflexivity|].
  destruct (generate_interactive_report_state to_html render data
              template_path output_path content df w Hf Hd) as (_ & Hp & _).
  eexists _, _, _, _, _. split; [exact Hp|]. repeat split.
Qed.

(** C5.  The Chart Builder and the Report Assembler are deterministic up
    to the element identifiers plotly draws.  Take two runs on the same
    table rows and the same template contents, in states that may differ
    in everything else.  They aggregate the same values and plot the same
    figures.  The keyword arguments they render the template with bind the
    same placeholders to the markup of the same figures, each at the
    identifier of its own call, so they are equal once the identifiers
    are erased; and a run that succeeds has written the template rendered
    with them.  Likewise two calls of [create_bar_chart] on the same
    arguments plot the same figure, and each returns the markup of that
    figure at the identifier of the call. *)
Theorem report_is_deterministic (w1 w2 : World) (data1 data2 : nat)
    (df : DataFrame) (template_path output_path : string) :
  frames w1 !! data1 = Some df →
  frames w2 !! data2 = Some df →
  files w1 !! template_path = files w2 !! template_path →
  let r1 := generate_interactive_report to_html render data1
              template_path output_path w1 in
  let r2 := generate_interactive_report to_html render data2
              template_path output_path w2 in
  drop (length (plotted w1)) (plotted r1.1)
  = drop (length (plotted w2)) (plotted r2.1)
  ∧ (∀ track level,
       ((d <- getitem_eq data1 CARGO track ;;
         calculate_mean_scores d level CATEGORIA) w1).2
       = ((d <- getitem_eq data2 CARGO track ;;
           calculate_mean_scores d level CATEGORIA) w2).2)
  ∧ (∀ s1 s2 labels t yt, ∃ fig,
       plotted (create_bar_chart to_html s1 s2 labels t yt w1).1
       = (plotted w1 ++ [fig])%list
       ∧ plotted (create_bar_chart to_html s1 s2 labels t yt w2).1
         = (plotted w2 ++ [fig])%list
       ∧ (create_bar_chart to_html s1 s2 labels t yt w1).2
         = inr (to_html fig (drawn w1))
       ∧ (create_bar_chart to_html s1 s2 labels t yt w2).2
         = inr (to_html fig (drawn w2)))
  ∧ Forall2 (λ kv1 kv2, kv1.1 = kv2.1 ∧
               ∃ fig i j, kv1.2 = to_html fig i ∧ kv2.2 = to_html fig j)
            (report_kwargs to_html df (drawn w1))
            (report_kwargs to_html df (drawn w2))
  ∧ (∀ erase : string → string,
       (∀ fig i j, erase (to_html fig i) = erase (to_html fig j)) →
       (λ kv, (kv.1, erase kv.2)) <$> report_kwargs to_html df (drawn w1)
       = (λ kv, (kv.1, erase kv.2)) <$> report_kwargs to_html df (drawn w2))
  ∧ (∀ content p,
       files w1 !! template_path = Some content → r1.2 = inr p →
       files r1.1 !! output_path
       = render content (report_kwargs to_html df (drawn w1)))
  ∧ (∀ content p,
       files w2 !! template_path = Some content → r2.2 = inr p →
       files r2.1 !! output_path
       = render content (report_kwargs to_html df (drawn w2))).
Proof.
  intros Hd1 Hd2 Hfiles r1 r2. subst r1 r2.
  split; [|split; [|split; [|split; [|split; [|split]]]]].
  - destruct (files w1 !! template_path) as [content|] eqn:Hf1; symmetry in Hfiles.
    + destruct (generate_interactive_report_state to_html render data1
                  template_path output_path content df w1 Hf1 Hd1) as (_ & -> & _).
      destruct (generate_interactive_report_state to_html render data2
                  template_path output_path content df w2 Hfiles Hd2) as (_ & -> & _).
      by rewrite !drop_app_length.
    + rewrite (generate_interactive_report_no_template _ _ _ _ _ _ Hf1).
      rewrite (generate_interactive_report_no_template _ _ _ _ _ _ Hfiles).
      simpl. by rewrite !drop_all.
  - intros track level.
    by rewrite (track_level_scores_ok _ _ _ _ _ Hd1),
               (track_level_scores_ok _ _ _ _ _ Hd2).
  - intros s1 s2 labels t yt.
    exists (bar_chart_figure s1 s2 labels t yt).
    unfold create_bar_chart. by rewrite !plotly_to_html_ok.
  - unfold report_kwargs. simpl. repeat constructor; simpl; eauto.
  - intros erase He. unfold report_kwargs. simpl.
    repeat (f_equal; try apply He).
  - intros content p Hf. by apply generate_interactive_report_written.
  - intros content p Hf. by apply generate_interactive_report_written.
Qed.

(** C7.  On the empty table, with a template that loads and renders and an
    output path that can be written, the six score mappings are empty, the
    category axis is empty, every series of the five figures is all zero
    (it has no entry), and the run succeeds: it writes at the output path
    the template rendered with the five chart fragments bound to its five
    placeholders, and returns the output path. *)
Theorem empty_table_report (w : World) (data : nat)
    (template_path output_path content html : string) :
  frames w !! data = Some [] →
  files w !! template_path = Some content →
  render content (report_kwargs to_html [] (drawn w)) = Some html →
  output_path ∉ readonly w →
  report_scores [] = replicate 6 ∅
  ∧ report_categories [] = []
  ∧ length (report_figures []) = 5%nat
  ∧ Forall (λ fig, Forall (λ b, bar_x b = [] ∧ Forall (λ y, y = 0%float) (bar_y b))
                          (traces fig))
           (report_figures [])
  ∧ (report_kwargs to_html [] (drawn w)).*1 = report_placeholders
  ∧ length (report_kwargs to_html [] (drawn w)) = 5%nat
  ∧ ∃ w',
      generate_interactive_report to_html render data
        template_path output_path w = (w', inr output_path)
      ∧ files w' !! output_path = Some html
      ∧ plotted w' = (plotted w ++ report_figures [])%list.
Proof.
  intros Hd Hf Hr Hw.
  split; [reflexivity|]. split; [reflexivity|]. split; [reflexivity|].
  split; [repeat constructor|]. split; [reflexivity|]. split; [reflexivity|].
  rewrite (generate_interactive_report_run _ _ _ _ _ _ _ _ Hf Hd), Hr.
  rewrite decide_False by done.
  eexists. split; [reflexivity|]. simpl. by rewrite lookup_insert_eq.
Qed.

End Assembler.

(** ** The theorems at the sample inputs *)

Lemma category_axis_order_witness :
  files sample_world !! "templates/template.html" = Some "<html>" ∧
  frames sample_world !! 0%nat = Some sample_table ∧
  Sorted String.le (report_categories sample_table) ∧
  NoDup (report_categories sample_table).
Proof.
  assert (files sample_world !! "templates/template.html" = Some "<html>")
    as Hf by (vm_compute; reflexivity).
  assert (frames sample_world !! 0%nat = Some sample_table)
    as Hd by reflexivity.
  split; [exact Hf|]. split; [exact Hd|].
  pose proof (category_axis_order sample_to_html sample_render sample_world 0
                "templates/template.html" "out.html" "<html>" sample_table
                Hf Hd) as H.
  cbv zeta in H. destruct H as (Hs & Hn & _).
  split; [exact Hs|exact Hn].
Defined.

Lemma report_is_deterministic_witness :
  frames sample_world !! 0%nat = Some sample_table ∧
  frames sample_world_later !! 1%nat = Some sample_table ∧
  files sample_world !! "templates/template.html"
  = files sample_world_later !! "templates/template.html" ∧
  drop (length (plotted sample_world))
       (plotted (generate_interactive_report sample_to_html sample_render 0
                   "templates/template.html" "out.html" sample_world).1)
  = drop (length (plotted sample_world_later))
         (plotted (generate_interactive_report sample_to_html sample_render 1
                     "templates/template.html" "out.html" sample_world_later).1).
Proof.
  assert (frames sample_world !! 0%nat = Some sample_table)
    as Hd1 by reflexivity.
  assert (frames sample_world_later !! 1%nat = Some sample_table)
    as Hd2 by reflexivity.
  assert (files sample_world !! "templates/template.html"
          = files sample_world_later !! "templates/template.html")
    as Hf by (vm_compute; reflexivity).
  split; [exact Hd1|]. split; [exact Hd2|]. split; [exact Hf|].
  pose proof (report_is_deterministic sample_to_html sample_render
                sample_world sample_world_later 0 1 sample_table
                "templates/template.html" "out.html" Hd1 Hd2 Hf) as H.
  cbv zeta in H. destruct H as (Hp & _). exact Hp.
Defined.

(** The claim as it is worded fails for the Chart Builder: two calls in a
    row on the same arguments return different markup strings, since
    plotly, like the stand-in here, writes into the markup the identifier
    it draws for the call. *)
Lemma chart_markup_differs_between_calls :
  let first := create_bar_chart sample_to_html ∅ ∅ ["SQL"] "t" "y" sample_world in
  let second := create_bar_chart sample_to_html ∅ ∅ ["SQL"] "t" "y" first.1 in
  first.2 = inr "<div id=0>t</div>"
  ∧ second.2 = inr "<div id=1>t</div>"
  ∧ first.2 ≠ second.2.
Proof. vm_compute. repeat split. intros [=]. Qed.

Lemma missing_template_aborts_witness :
  files sample_world_no_template !! "templates/template.html" = None ∧
  generate_interactive_report sample_to_html sample_render 0
    "templates/template.html" "engineering_insights_interactive_report.html"
    sample_world_no_template
  = (sample_world_no_template,
     inl (FileNotFoundError "templates/template.html")).
Proof.
  assert (files sample_world_no_template !! "templates/template.html" = None)
    as Hf by (vm_compute; reflexivity).
  split; [exact Hf|].
  pose proof (missing_template_aborts sample_to_html sample_render
                sample_world_no_template 0 "templates/template.html"
                "engineering_insights_interactive_report.html" Hf) as H.
  cbv zeta in H. destruct H as (Hrun & _). exact Hrun.
Defined.

Lemma empty_table_report_witness :
  frames sample_world_empty !! 0%nat = Some [] ∧
  files sample_world_empty !! "templates/template.html" = Some "<html>" ∧
  is_Some (sample_render "<html>"
             (report_kwargs sample_to_html [] (drawn sample_world_empty))) ∧
  ("out.html" ∉ readonly sample_world_empty) ∧
  ∃ w', generate_interactive_report sample_to_html sample_render 0
          "templates/template.html" "out.html" sample_world_empty
        = (w', inr "out.html").
Proof.
  assert (frames sample_world_empty !! 0%nat = Some []) as Hd by reflexivity.
  assert (files sample_world_empty !! "templates/template.html" = Some "<html>")
    as Hf by (vm_compute; reflexivity).
  assert ("out.html" ∉ readonly sample_world_empty)
    as Hw by apply not_elem_of_empty.
  split; [exact Hd|]. split; [exact Hf|].
  split; [eexists; reflexivity|]. split; [exact Hw|].
  pose proof (empty_table_report sample_to_html sample_render
                sample_world_empty 0 "templates/template.html" "out.html"
                "<html>" _ Hd Hf eq_refl Hw) as H.
  destruct H as (_ & _ & _ & _ & _ & _ & w' & Hrun & _).
  exists w'. exact Hrun.
Defined.

Lemma table_never_mutated_witness :
  frames sample_world !! 0%nat = Some sample_table ∧
  frames (generate_interactive_report sample_to_html sample_render 0
            "templates/template.html" "out.html" sample_world).1 !! 0%nat
  = Some sample_table.
Proof.
  assert (frames sample_world !! 0%nat = Some sample_table)
    as Hd by reflexivity.
  split; [exact Hd|].
  pose proof (table_never_mutated sample_to_html sample_render sample_world 0
                "templates/template.html" "out.html" sample_table Hd) as H.
  destruct H as (_ & _ & Hrun & _). exact Hrun.
Defined.

Lemma bar_chart_names_fixed_witness :
  files sample_world !! "templates/template.html" = Some "<html>" ∧
  frames sample_world !! 0%nat = Some sample_table ∧
  ∀ data1 data2 labels t yt,
    bar_name <$> traces (bar_chart_figure data1 data2 labels t yt)
    = ["Juniors"; "Seniors"].
Proof.
  assert (files sample_world !! "templates/template.html" = Some "<html>")
    as Hf by (vm_compute; reflexivity).
  assert (frames sample_world !! 0%nat = Some sample_table)
    as Hd by reflexivity.
  split; [exact Hf|]. split; [exact Hd|].
  pose proof (bar_chart_names_fixed sample_to_html sample_render sample_world 0
                "templates/template.html" "out.html" "<html>" sample_table
                Hf Hd) as H.
  destruct H as (Hnames & _). exact Hnames.
Defined.

(** The sample run ends well and leaves the twelve selections and the five
    figures in the state. *)
Example sample_run :
  let r := generate_interactive_report sample_to_html sample_render 0
             "templates/template.html" "out.html" sample_world in
  r.2 = inr "out.html"
  ∧ length (frames r.1) = 13%nat
  ∧ length (plotted r.1) = 5%nat
  ∧ drawn r.1 = 5%N
  ∧ is_Some (files r.1 !! "out.html").
Proof. vm_compute. repeat split. by eexists. Qed.

(** ** Further properties: how a run ends *)

Section RunOutcome.

Variable to_html : Figure → N → string.
Variable render : string → list (string * string) → option string.

(** X2.  A run that succeeds returns the output path and has changed the
    files at that path only: it now holds the template rendered with the
    five chart fragments, replacing whatever was there, and every other
    path holds what it held.  Such a run found the template, could render
    it, and could write the output path. *)
Theorem successful_run_writes_only_output (w : World) (data : nat)
    (template_path output_path p : string) :
  (generate_interactive_report to_html render data
     template_path output_path w).2 = inr p →
  let w' := (generate_interactive_report to_html render data
               template_path output_path w).1 in
  p = output_path
  ∧ (output_path ∉ readonly w)
  ∧ (∀ q, q ≠ output_path → files w' !! q = files w !! q)
  ∧ ∃ content df html,
      files w !! template_path = Some content
      ∧ frames w !! data = Some df
      ∧ render content (report_kwargs to_html df (drawn w)) = Some html
      ∧ files w' = <[output_path := html]> (files w).
Proof.
  destruct (files w !! template_path) as [content|] eqn:Hf.
  - destruct (frames w !! data) as [df|] eqn:Hd.
    + rewrite (generate_interactive_report_run _ _ _ _ _ _ _ _ Hf Hd).
      destruct (render content _) as [html|] eqn:Hr; [|done].
      destruct (decide (output_path ∈ readonly w)) as [|Hw]; [done|].
      simpl. intros [= <-]. split; [done|]. split; [done|]. split.
      * intros q Hq. by rewrite lookup_insert_ne.
      * by exists content, df, html.
    + by rewrite (generate_interactive_report_no_table _ _ _ _ _ _ _ Hf Hd).
  - by rewrite (generate_interactive_report_no_template _ _ _ _ _ _ Hf).
Qed.

(** X3.  The order in which a run can fail, for a table that is loaded.
    With no template the run raises file-not-found, whatever else is wrong.
    With a template that does not render it raises the template error even
    when the output path cannot be opened.  With a template that renders
    and an output path that cannot be opened for writing it raises the
    error of the open.  In the last two cases the five charts have been
    built all the same (twelve selections made, five identifiers drawn),
    and in all three no file has been touched. *)
Theorem run_failure_order (w : World) (data : nat)
    (template_path output_path : string) (df : DataFrame) :
  frames w !! data = Some df →
  let r := generate_interactive_report to_html render data
             template_path output_path w in
  (files w !! template_path = None →
     r = (w, inl (FileNotFoundError template_path)))
  ∧ (∀ content,
       files w !! template_path = Some content →
       render content (report_kwargs to_html df (drawn w)) = None →
       r = (after_charts w df, inl TemplateError))
  ∧ (∀ content html,
       files w !! template_path = Some content →
       render content (report_kwargs to_html df (drawn w)) = Some html →
       output_path ∈ readonly w →
       r = (after_charts w df, inl (OSError output_path)))
  ∧ files (after_charts w df) = files w
  ∧ length (frames (after_charts w df)) = (length (frames w) + 12)%nat
  ∧ drawn (after_charts w df) = (drawn w + 5)%N.
Proof.
  intros Hd r. subst r. split; [|split; [|split; [|split; [|split]]]].
  - apply generate_interactive_report_no_template.
  - intros content Hf Hr.
    by rewrite (generate_interactive_report_run _ _ _ _ _ _ _ _ Hf Hd), Hr.
  - intros content html Hf Hr Hw.
    rewrite (generate_interactive_report_run _ _ _ _ _ _ _ _ Hf Hd), Hr.
    by rewrite decide_True.
  - reflexivity.
  - simpl. by rewrite length_app.
  - reflexivity.
Qed.

End RunOutcome.

(** ** Further properties: [calculate_mean_scores] on its own *)

Lemma mean_scores_lookup (df : DataFrame) (level : string) (c : Column)
    (k : string) :
  mean_scores df level c !! k
  = if decide (k ∈ column c <$> select_eq NIVEL level df)
    then Some (mean (pontuacao <$>
                       filter (λ r, column c r = k ∧ nivel r = level) df))
    else None.
Proof.
  unfold mean_scores.
  destruct (decide (k ∈ column c <$> select_eq NIVEL level df)) as [Hin|Hin].
  - rewrite to_dict_groupby_mean_Some.
    + unfold select_eq.
      by rewrite (list_filter_filter (λ r, column c r = k)
                    (λ r, column NIVEL r = level) df).
    + apply list_elem_of_fmap in Hin as (r & -> & Hr). by exists r.
  - apply to_dict_groupby_mean_None. intros r Hr Hk. apply Hin.
    apply list_elem_of_fmap. by exists r.
Qed.

Lemma elem_of_level_column (df : DataFrame) (level : string) (c : Column)
    (k : string) :
  k ∈ column c <$> select_eq NIVEL level df
  ↔ ∃ r, r ∈ df ∧ nivel r = level ∧ column c r = k.
Proof.
  rewrite list_elem_of_fmap. unfold select_eq.
  setoid_rewrite list_elem_of_filter. simpl. naive_solver.
Qed.

(** X4.  [calculate_mean_scores] on its own, grouping by any of the three
    label columns: the keys of the dict are the values that column takes
    on the rows of the given level, and the value at a key is the float64
    mean pandas computes from the scores of the rows of that level with
    that value (the scores that are present summed in row order with
    Kahan's compensation and divided by their number, NaN when none is
    present).  When the column is the level column itself, the level is
    the only possible key. *)
Theorem calculate_mean_scores_by_column (w : World) (data : nat)
    (df : DataFrame) (level : string) (c : Column) :
  frames w !! data = Some df →
  ∃ w' scores,
    calculate_mean_scores data level c w = (w', inr scores)
    ∧ (∀ k, is_Some (scores !! k)
            ↔ ∃ r, r ∈ df ∧ nivel r = level ∧ column c r = k)
    ∧ (∀ k v, scores !! k = Some v →
         let grp := pontuacao <$>
                      filter (λ r, column c r = k ∧ nivel r = level) df in
         grp ≠ [] ∧
         v = let '(sumx, _, nobs) :=
               fold_left
                 (λ acc val,
                    let '(sumx, compensation, nobs) := acc in
                    if PrimFloat.eqb val val then
                      let y := PrimFloat.sub val compensation in
                      let t := PrimFloat.add sumx y in
                      let c := PrimFloat.sub (PrimFloat.sub t sumx) y in
                      (t, if PrimFloat.eqb c c then c else 0%float, Z.succ nobs)
                    else (sumx, compensation, nobs))
                 grp (0%float, 0%float, 0%Z) in
             if (nobs =? 0)%Z then nan
             else PrimFloat.div sumx (PrimFloat.of_uint63 (Uint63.of_Z nobs)))
    ∧ (c = NIVEL → ∀ k, is_Some (scores !! k) → k = level).
Proof.
  intros Hd. eexists _, _. split; [by apply calculate_mean_scores_ok|].
  assert (∀ k, is_Some (mean_scores df level c !! k)
               ↔ ∃ r, r ∈ df ∧ nivel r = level ∧ column c r = k) as Hkeys.
  { intros k. rewrite mean_scores_lookup, <- elem_of_level_column.
    destruct (decide (k ∈ column c <$> select_eq NIVEL level df)).
    - split; [done|]. by eexists.
    - split; [|done]. by intros [? ?]. }
  split; [exact Hkeys|]. split.
  - intros k v Hv.
    assert (is_Some (mean_scores df level c !! k)) as Hsome by by eexists.
    apply Hkeys in Hsome as (r & Hr & Hl & Hc).
    rewrite mean_scores_lookup in Hv.
    rewrite decide_True in Hv by (apply elem_of_level_column; by exists r).
    injection Hv as <-.
    split; [|apply mean_unfold].
    intros Hnil. apply fmap_nil_inv in Hnil.
    assert (r ∈ filter (λ r, column c r = k ∧ nivel r = level) df) as Hin
      by (by apply list_elem_of_filter).
    rewrite Hnil in Hin. by apply not_elem_of_nil in Hin.
  - intros -> k Hk. apply Hkeys in Hk as (r & _ & Hl & Hc).
    simpl in Hc. congruence.
Qed.

Lemma calculate_mean_scores_by_column_witness :
  frames sample_world !! 0%nat = Some sample_table ∧
  ∃ w' scores,
    calculate_mean_scores 0 "Junior" CARGO sample_world = (w', inr scores)
    ∧ (∀ k, is_Some (scores !! k)
            ↔ ∃ r, r ∈ sample_table ∧ nivel r = "Junior" ∧ column CARGO r = k)
    ∧ (∀ v, scores !! "ENGENHARIA DE DADOS" = Some v → v = 15%float).
Proof.
  assert (frames sample_world !! 0%nat = Some sample_table)
    as Hd by reflexivity.
  split; [exact Hd|].
  destruct (calculate_mean_scores_by_column sample_world 0 sample_table
              "Junior" CARGO Hd) as (w' & scores & Hrun & Hkeys & Hval & _).
  exists w', scores. split; [exact Hrun|]. split; [exact Hkeys|].
  intros v Hv. destruct (Hval _ v Hv) as [_ ->]. vm_compute. reflexivity.
Defined.

(** X5.  A level that no row has is not an error: [calculate_mean_scores]
    returns the empty dict, and it returns the empty dict only then. *)
Theorem calculate_mean_scores_empty_iff (w : World) (data : nat)
    (df : DataFrame) (level : string) (c : Column) :
  frames w !! data = Some df →
  (calculate_mean_scores data level c w).2 = inr ∅
  ↔ ∀ r, r ∈ df → nivel r ≠ level.
Proof.
  intros Hd. rewrite (calculate_mean_scores_ok _ _ _ _ _ Hd). simpl. split.
  - intros [= Hempty] r Hr Hl.
    assert (mean_scores df level c !! column c r = None) as Hnone
      by (by rewrite Hempty, lookup_empty).
    rewrite mean_scores_lookup in Hnone.
    rewrite decide_True in Hnone; [done|].
    apply elem_of_level_column. by exists r.
  - intros Hno. f_equal. apply map_eq. intros k.
    rewrite lookup_empty, mean_scores_lookup.
    rewrite decide_False; [done|].
    rewrite elem_of_level_column. intros (r & Hr & Hl & _). by apply (Hno r).
Qed.

Lemma calculate_mean_scores_empty_iff_witness :
  frames sample_world !! 0%nat = Some sample_table ∧
  (calculate_mean_scores 0 "Senior" CATEGORIA sample_world).2 = inr ∅.
Proof.
  assert (frames sample_world !! 0%nat = Some sample_table)
    as Hd by reflexivity.
  split; [exact Hd|].
  apply (calculate_mean_scores_empty_iff sample_world 0 sample_table
           "Senior" CATEGORIA Hd).
  intros r Hr.
  repeat (apply elem_of_cons in Hr as [->|Hr]; [by vm_compute|]).
  by apply not_elem_of_nil in Hr.
Defined.

(** ** Further properties: from the means to the bars *)

(** The keys of a score mapping of the run are on the category axis. *)
Lemma track_level_scores_keys_on_axis (df : DataFrame) (track level k : string) :
  is_Some (track_level_scores df track level !! k) → k ∈ report_categories df.
Proof.
  rewrite track_level_scores_meanByCategory, meanByCategory_lookup.
  destruct (decide (k ∈ categoria <$> matching_rows df level track))
    as [Hin|]; [|by intros [? ?]].
  intros _. apply elem_of_report_categories.
  apply list_elem_of_fmap in Hin as (r & -> & Hr).
  apply list_elem_of_filter in Hr as [_ Hr]. by exists r.
Qed.

(** A category none of whose rows passes the filter is not a key. *)
Lemma track_level_scores_unmatched (df : DataFrame) (track level c : string) :
  (∀ r, r ∈ df → categoria r = c → ¬ (cargo r = track ∧ nivel r = level)) →
  track_level_scores df track level !! c = None.
Proof.
  intros Hno.
  rewrite track_level_scores_meanByCategory, meanByCategory_lookup.
  rewrite decide_False; [done|].
  intros Hin. apply list_elem_of_fmap in Hin as (r & -> & Hr).
  apply list_elem_of_filter in Hr as [[Hl Ht] Hr]. by apply (Hno r).
Qed.

(** A series filled from a mapping whose keys are all on the axis shows
    each value of the mapping, and shows nothing else but zeros. *)
Lemma default_series_faithful (m : gmap string float) (cats : list string) :
  (∀ k, is_Some (m !! k) → k ∈ cats) →
  (∀ k v, m !! k = Some v →
          ∃ i, cats !! i = Some k
               ∧ ((λ c, dict_get m c 0%float) <$> cats) !! i = Some v)
  ∧ (∀ i y, ((λ c, dict_get m c 0%float) <$> cats) !! i = Some y → y ≠ 0%float →
            ∃ k, cats !! i = Some k ∧ m !! k = Some y).
Proof.
  intros Hkeys. split.
  - intros k v Hv.
    destruct (proj1 (list_elem_of_lookup cats k) (Hkeys k (ex_intro _ v Hv)))
      as [i Hi].
    exists i. split; [done|].
    rewrite list_lookup_fmap, Hi. simpl. unfold dict_get. by rewrite Hv.
  - intros i y. rewrite list_lookup_fmap.
    destruct (cats !! i) as [k|] eqn:Hi; [|done].
    simpl. unfold dict_get. intros [= <-] Hy. exists k. split; [done|].
    by destruct (m !! k).
Qed.

Lemma default_series_zero (m : gmap string float) (cats : list string)
    (c : string) (i : nat) :
  m !! c = None → cats !! i = Some c →
  ((λ c, dict_get m c 0%float) <$> cats) !! i = Some 0%float.
Proof.
  intros Hm Hi. rewrite list_lookup_fmap, Hi. simpl. unfold dict_get.
  by rewrite Hm.
Qed.

Lemma report_filters_cases (P : string * string → Prop) :
  P ("ENGENHARIA DE DADOS", "Junior") →
  P ("ENGENHARIA DE DADOS", "Sênior") →
  P ("ENGENHARIA DE ANALYTICS", "Junior") →
  P ("ENGENHARIA DE ANALYTICS", "Sênior") →
  P ("ENGENHARIA DE DADOS", "Pleno") →
  P ("ENGENHARIA DE ANALYTICS", "Pleno") →
  ∀ f, f ∈ report_filters → P f.
Proof.
  intros H1 H2 H3 H4 H5 H6 f Hf. unfold report_filters in Hf.
  repeat (apply elem_of_cons in Hf as [->|Hf]; [done|]).
  by apply not_elem_of_nil in Hf.
Qed.

(** Each figure of the run has two series, each filled from one of the
    six score mappings over the category axis. *)
Lemma report_figures_series (df : DataFrame) :
  Forall (λ fig,
            ∃ b1 b2,
              traces fig = [b1; b2]
              ∧ Forall (λ b, ∃ f, f ∈ report_filters
                               ∧ bar_x b = report_categories df
                               ∧ bar_y b
                                 = (λ c, dict_get (track_level_scores df f.1 f.2)
                                                  c 0%float)
                                     <$> report_categories df)
                       [b1; b2])
         (report_figures df).
Proof.
  repeat constructor;
    (eexists _, _; split; [reflexivity|];
     repeat constructor;
       (eexists (_, _); split; [|split; [reflexivity|reflexivity]];
        unfold report_filters;
        repeat first [apply list_elem_of_here | apply list_elem_of_further])).
Qed.

Section Bars.

Variable to_html : Figure → N → string.
Variable render : string → list (string * string) → option string.

(** X7.  Nothing aggregated is lost and nothing is invented on the way to
    the charts.  A run plots five figures of two series each.  Each series
    is filled from one of the six score mappings; every value of that
    mapping is the height of the bar at its category, and every bar other
    than the default zero is the value the mapping holds for the category
    at that position. *)
Theorem run_plots_every_mean (w : World) (data : nat)
    (template_path output_path content : string) (df : DataFrame) :
  files w !! template_path = Some content →
  frames w !! data = Some df →
  ∃ figs,
    plotted (generate_interactive_report to_html render data
               template_path output_path w).1 = (plotted w ++ figs)%list
    ∧ length figs = 5%nat
    ∧ Forall (λ fig, ∃ b1 b2,
        traces fig = [b1; b2]
        ∧ Forall (λ b, ∃ f, f ∈ report_filters
                  ∧ (∀ k v, track_level_scores df f.1 f.2 !! k = Some v →
                        ∃ i, bar_x b !! i = Some k ∧ bar_y b !! i = Some v)
                  ∧ (∀ i y, bar_y b !! i = Some y → y ≠ 0%float →
                        ∃ k, bar_x b !! i = Some k
                             ∧ track_level_scores df f.1 f.2 !! k = Some y))
               [b1; b2]) figs.
Proof.
  intros Hf Hd. exists (report_figures df).
  destruct (generate_interactive_report_state to_html render data
              template_path output_path content df w Hf Hd) as (_ & Hp & _).
  split; [exact Hp|]. split; [reflexivity|].
  eapply Forall_impl; [apply report_figures_series|].
  intros fig (b1 & b2 & Htr & Hbars). exists b1, b2. split; [exact Htr|].
  eapply Forall_impl; [exact Hbars|].
  intros b (f & Hin & -> & ->). exists f. split; [done|].
  apply default_series_faithful, track_level_scores_keys_on_axis.
Qed.

(** X8.  A category whose rows all carry a track or a level other than the
    six pairs the run aggregates (a level spelled differently, say) is
    still on the axis of every chart: in each of the two series of each of
    the five figures it has exactly one position, and the bar there is
    zero. *)
Theorem unmatched_category_is_zero_everywhere (w : World) (data : nat)
    (template_path output_path content c : string) (df : DataFrame) :
  files w !! template_path = Some content →
  frames w !! data = Some df →
  c ∈ categoria <$> df →
  Forall (λ r, categoria r = c → (cargo r, nivel r) ∉ report_filters) df →
  ∃ figs,
    plotted (generate_interactive_report to_html render data
               template_path output_path w).1 = (plotted w ++ figs)%list
    ∧ length figs = 5%nat
    ∧ Forall (λ fig, ∃ b1 b2,
        traces fig = [b1; b2]
        ∧ Forall (λ b, ∃ i, bar_x b !! i = Some c
                            ∧ bar_y b !! i = Some 0%float
                            ∧ ∀ j, bar_x b !! j = Some c → j = i)
                 [b1; b2]) figs.
Proof.
  intros Hf Hd Hc Hun. exists (report_figures df).
  destruct (generate_interactive_report_state to_html render data
              template_path output_path content df w Hf Hd) as (_ & Hp & _).
  split; [exact Hp|]. split; [reflexivity|].
  assert (c ∈ report_categories df) as Haxis.
  { apply elem_of_report_categories.
    apply list_elem_of_fmap in Hc as (r & -> & Hr). by exists r. }
  apply list_elem_of_lookup in Haxis as [i Hi].
  eapply Forall_impl; [apply report_figures_series|].
  intros fig (b1 & b2 & Htr & Hbars). exists b1, b2. split; [exact Htr|].
  eapply Forall_impl; [exact Hbars|].
  intros b (f & Hin & -> & ->). exists i. split; [done|]. split.
  - apply (default_series_zero _ _ c); [|done].
    apply track_level_scores_unmatched. intros r Hr Hcat [Ht Hl].
    rewrite Forall_forall in Hun. apply (Hun r Hr Hcat).
    destruct f as [t l]. simpl in *. by subst.
  - intros j Hj.
    by apply (NoDup_lookup _ _ _ _ (NoDup_report_categories df) Hj Hi).
Qed.

End Bars.

(** X9.  Only the entries at the labels reach a chart: two pairs of
    mappings that agree at every label give the same figure and the same
    markup, whatever other keys they hold; with no label at all the two
    series are empty. *)
Theorem chart_reads_only_labels (to_html : Figure → N → string)
    (data1 data2 data1' data2' : gmap string float) (labels : list string)
    (t yt : string) (w : World) :
  Forall (λ l, data1 !! l = data1' !! l ∧ data2 !! l = data2' !! l) labels →
  create_bar_chart to_html data1 data2 labels t yt w
  = create_bar_chart to_html data1' data2' labels t yt w
  ∧ create_senior_comparison_chart to_html data1 data2 labels t yt w
    = create_senior_comparison_chart to_html data1' data2' labels t yt w
  ∧ bar_y <$> traces (bar_chart_figure data1 data2 [] t yt) = [[]; []].
Proof.
  intros Hl.
  assert ((λ l, dict_get data1 l 0%float) <$> labels
          = (λ l, dict_get data1' l 0%float) <$> labels) as H1.
  { apply list_eq_Forall2, Forall2_fmap, Forall_Forall2_diag.
    eapply Forall_impl; [exact Hl|].
    intros l [Heq _]. unfold dict_get. by rewrite Heq. }
  assert ((λ l, dict_get data2 l 0%float) <$> labels
          = (λ l, dict_get data2' l 0%float) <$> labels) as H2.
  { apply list_eq_Forall2, Forall2_fmap, Forall_Forall2_diag.
    eapply Forall_impl; [exact Hl|].
    intros l [_ Heq]. unfold dict_get. by rewrite Heq. }
  unfold create_bar_chart, create_senior_comparison_chart,
    bar_chart_figure, senior_comparison_figure.
  by rewrite H1, H2.
Qed.

(** ** Further properties: the script as a whole *)

Section ScriptRun.

Variable to_html : Figure → N → string.
Variable render : string → list (string * string) → option string.
Variable parse_csv : string → option DataFrame.

(** Every way the script can go, in the order the checks are made. *)
Lemma script_run (w : World) :
  script to_html render parse_csv w
  = match files w !! "data/data.csv" with
    | None => (w, inl (Uncaught (FileNotFoundError "data/data.csv")))
    | Some text =>
        match parse_csv text with
        | None => (w, inl ParserError)
        | Some df =>
            match files w !! "templates/template.html" with
            | None =>
                (loaded w df,
                 inl (Uncaught (FileNotFoundError "templates/template.html")))
            | Some content =>
                match render content (report_kwargs to_html df (drawn w)) with
                | None => (after_charts (loaded w df) df,
                           inl (Uncaught TemplateError))
                | Some html =>
                    if decide ("engineering_insights_interactive_report.html"
                                 ∈ readonly w)
                    then (after_charts (loaded w df) df,
                          inl (Uncaught
                                 (OSError
                                    "engineering_insights_interactive_report.html")))
                    else (after_write (loaded w df) df
                            "engineering_insights_interactive_report.html" html,
                          inr ())
                end
            end
        end
    end.
Proof.
  unfold script, read_csv.
  destruct (files w !! "data/data.csv") as [text|]; [|done].
  destruct (parse_csv text) as [df|]; [|done].
  unfold frame_new. fold (loaded w df).
  assert (frames (loaded w df) !! length (frames w) = Some df) as Hd
    by apply list_lookup_middle, eq_refl.
  destruct (files w !! "templates/template.html") as [content|] eqn:Hf.
  - rewrite (generate_interactive_report_run to_html render _ _ _ content df
               (loaded w df) Hf Hd).
    cbn [loaded drawn readonly].
    destruct (render content _) as [html|]; [|done].
    by destruct (decide (_ ∈ readonly w)).
  - by rewrite (generate_interactive_report_no_template to_html render _ _ _
                  (loaded w df) Hf).
Qed.

(** X10.  The script checks its inputs in a fixed order.  Without the data
    file it raises file-not-found for the data file, and with a data file
    pandas cannot parse it raises the parser's error; in both cases
    nothing has happened yet, whether or not the template exists.  With a
    table but no template it raises file-not-found for the template, the
    table being loaded and nothing else done. *)
Theorem script_checks_data_first (w : World) :
  (files w !! "data/data.csv" = None →
   script to_html render parse_csv w
   = (w, inl (Uncaught (FileNotFoundError "data/data.csv"))))
  ∧ (∀ text, files w !! "data/data.csv" = Some text →
       parse_csv text = None →
       script to_html render parse_csv w = (w, inl ParserError))
  ∧ (∀ text df, files w !! "data/data.csv" = Some text →
       parse_csv text = Some df →
       files w !! "templates/template.html" = None →
       script to_html render parse_csv w
       = (mkWorld (files w) (readonly w) (frames w ++ [df]) (drawn w) (plotted w),
          inl (Uncaught (FileNotFoundError "templates/template.html")))).
Proof.
  rewrite script_run. split; [|split].
  - by intros ->.
  - by intros text -> ->.
  - by intros text df -> -> ->.
Qed.

(** X11.  Whatever the state it starts in and however it ends, the script
    leaves the data file and the template as they were: the only path it
    writes is the default output path. *)
Theorem script_keeps_inputs (w : World) :
  let r := script to_html render parse_csv w in
  files r.1 !! "data/data.csv" = files w !! "data/data.csv"
  ∧ files r.1 !! "templates/template.html"
    = files w !! "templates/template.html".
Proof.
  cbv zeta. rewrite script_run.
  destruct (files w !! "data/data.csv") as [text|] eqn:Hdata;
    [|by repeat split].
  destruct (parse_csv text) as [df|]; [|by repeat split].
  destruct (files w !! "templates/template.html") as [content|] eqn:Hf;
    [|by repeat split].
  destruct (render content _) as [html|]; [|by repeat split].
  destruct (decide (_ ∈ readonly w)); [by repeat split|].
  cbn [fst snd after_write files].
  split; by rewrite lookup_insert_ne.
Qed.

(** X12.  When the data file holds a table pandas reads with the four
    columns, the template exists and renders with the five chart
    fragments of that table, and the default output path can be written,
    the script succeeds: it leaves the rendered report at that path,
    every other file as it was, and in the store the table it loaded
    followed by the twelve selections. *)
Theorem script_writes_report (w : World) (text content html : string)
    (df : DataFrame) :
  files w !! "data/data.csv" = Some text →
  parse_csv text = Some df →
  files w !! "templates/template.html" = Some content →
  render content (report_kwargs to_html df (drawn w)) = Some html →
  "engineering_insights_interactive_report.html" ∉ readonly w →
  let r := script to_html render parse_csv w in
  r.2 = inr ()
  ∧ files r.1
    = <["engineering_insights_interactive_report.html" := html]> (files w)
  ∧ frames r.1 = (frames w ++ df :: report_frames df)%list
  ∧ plotted r.1 = (plotted w ++ report_figures df)%list.
Proof.
  intros Hdata Hp Hf Hr Hw. cbv zeta. rewrite script_run, Hdata, Hp, Hf, Hr.
  rewrite decide_False by done.
  cbn [fst snd after_write frames plotted files].
  split; [done|]. split; [done|]. split; [|done].
  unfold loaded. simpl. by rewrite <- app_assoc.
Qed.

End ScriptRun.

(** ** The further properties at the sample inputs *)

Lemma successful_run_writes_only_output_witness :
  (generate_interactive_report sample_to_html sample_render 0
     "templates/template.html" "out.html" sample_world).2 = inr "out.html" ∧
  ∀ q, q ≠ "out.html" →
       files (generate_interactive_report sample_to_html sample_render 0
                "templates/template.html" "out.html" sample_world).1 !! q
       = files sample_world !! q.
Proof.
  assert ((generate_interactive_report sample_to_html sample_render 0
             "templates/template.html" "out.html" sample_world).2
          = inr "out.html") as Hok
    by (vm_compute; reflexivity).
  split; [exact Hok|].
  pose proof (successful_run_writes_only_output sample_to_html sample_render
                sample_world 0 "templates/template.html" "out.html"
                "out.html" Hok) as H.
  cbv zeta in H. destruct H as (_ & _ & Hq & _). exact Hq.
Defined.

Lemma run_failure_order_witness :
  frames sample_world_readonly !! 0%nat = Some sample_table ∧
  length (frames (after_charts sample_world_readonly sample_table))
  = (length (frames sample_world_readonly) + 12)%nat.
Proof.
  assert (frames sample_world_readonly !! 0%nat = Some sample_table)
    as Hd by reflexivity.
  split; [exact Hd|].
  pose proof (run_failure_order sample_to_html sample_render
                sample_world_readonly 0 "templates/template.html" "out.html"
                sample_table Hd) as H.
  cbv zeta in H. destruct H as (_ & _ & _ & _ & Hlen & _). exact Hlen.
Defined.

Lemma run_plots_every_mean_witness :
  files sample_world !! "templates/template.html" = Some "<html>" ∧
  frames sample_world !! 0%nat = Some sample_table ∧
  ∃ figs,
    plotted (generate_interactive_report sample_to_html sample_render 0
               "templates/template.html" "out.html" sample_world).1
    = (plotted sample_world ++ figs)%list
    ∧ length figs = 5%nat.
Proof.
  assert (files sample_world !! "templates/template.html" = Some "<html>")
    as Hf by (vm_compute; reflexivity).
  assert (frames sample_world !! 0%nat = Some sample_table)
    as Hd by reflexivity.
  split; [exact Hf|]. split; [exact Hd|].
  destruct (run_plots_every_mean sample_to_html sample_render sample_world 0
              "templates/template.html" "out.html" "<html>" sample_table Hf Hd)
    as (figs & Hp & Hlen & _).
  exists figs. split; [exact Hp|exact Hlen].
Defined.

Lemma unmatched_category_is_zero_everywhere_witness :
  files sample_world_typo !! "templates/template.html" = Some "<html>" ∧
  frames sample_world_typo !! 0%nat = Some sample_table_typo ∧
  "Spark" ∈ categoria <$> sample_table_typo ∧
  Forall (λ r, categoria r = "Spark" → (cargo r, nivel r) ∉ report_filters)
         sample_table_typo ∧
  ∃ figs,
    plotted (generate_interactive_report sample_to_html sample_render 0
               "templates/template.html" "out.html" sample_world_typo).1
    = (plotted sample_world_typo ++ figs)%list
    ∧ length figs = 5%nat.
Proof.
  assert (files sample_world_typo !! "templates/template.html" = Some "<html>")
    as Hf by (vm_compute; reflexivity).
  assert (frames sample_world_typo !! 0%nat = Some sample_table_typo)
    as Hd by reflexivity.
  assert ("Spark" ∈ categoria <$> sample_table_typo) as Hc.
  { vm_compute. do 5 apply list_elem_of_further. apply list_elem_of_here. }
  assert (Forall (λ r, categoria r = "Spark" →
                       (cargo r, nivel r) ∉ report_filters)
                 sample_table_typo) as Hun.
  { unfold sample_table_typo, sample_table. simpl.
    repeat constructor; try (intros [=]).
    intros Hin. unfold report_filters in Hin. simpl in Hin.
    repeat (apply elem_of_cons in Hin as [[=]|Hin]).
    by apply not_elem_of_nil in Hin. }
  split; [exact Hf|]. split; [exact Hd|]. split; [exact Hc|].
  split; [exact Hun|].
  destruct (unmatched_category_is_zero_everywhere sample_to_html sample_render
              sample_world_typo 0 "templates/template.html" "out.html" "<html>"
              "Spark" sample_table_typo Hf Hd Hc Hun)
    as (figs & Hp & Hlen & _).
  exists figs. split; [exact Hp|exact Hlen].
Defined.

Lemma chart_reads_only_labels_witness :
  Forall (λ l, ({["SQL" := score 15]} : gmap string float) !! l
               = ({["SQL" := score 15; "Cloud" := score 9]} : gmap string float) !! l
               ∧ (∅ : gmap string float) !! l
                 = ({["Python" := score 7]} : gmap string float) !! l)
         ["SQL"] ∧
  create_bar_chart sample_to_html {["SQL" := score 15]} ∅ ["SQL"] "t" "y"
    sample_world
  = create_bar_chart sample_to_html
      {["SQL" := score 15; "Cloud" := score 9]} {["Python" := score 7]}
      ["SQL"] "t" "y" sample_world.
Proof.
  assert (Forall (λ l, ({["SQL" := score 15]} : gmap string float) !! l
                       = ({["SQL" := score 15; "Cloud" := score 9]}
                            : gmap string float) !! l
                       ∧ (∅ : gmap string float) !! l
                         = ({["Python" := score 7]} : gmap string float) !! l)
                 ["SQL"]) as Hl.
  { repeat constructor; vm_compute; reflexivity. }
  split; [exact Hl|].
  pose proof (chart_reads_only_labels sample_to_html
                {["SQL" := score 15]} ∅
                {["SQL" := score 15; "Cloud" := score 9]} {["Python" := score 7]}
                ["SQL"] "t" "y" sample_world Hl) as H.
  destruct H as (Hbars & _). exact Hbars.
Defined.

Lemma script_checks_data_first_witness :
  files sample_disk_no_data !! "data/data.csv" = None ∧
  script sample_to_html sample_render sample_parse_csv sample_disk_no_data
  = (sample_disk_no_data,
     inl (Uncaught (FileNotFoundError "data/data.csv"))).
Proof.
  assert (files sample_disk_no_data !! "data/data.csv" = None)
    as Hdata by (vm_compute; reflexivity).
  split; [exact Hdata|].
  pose proof (script_checks_data_first sample_to_html sample_render
                sample_parse_csv sample_disk_no_data) as H.
  destruct H as (Hmiss & _). exact (Hmiss Hdata).
Defined.

Lemma script_writes_report_witness :
  files sample_disk !! "data/data.csv" = Some "NIVEL,CARGO,CATEGORIA,PONTUACAO" ∧
  sample_parse_csv "NIVEL,CARGO,CATEGORIA,PONTUACAO" = Some [] ∧
  files sample_disk !! "templates/template.html" = Some "<html>" ∧
  is_Some (sample_render "<html>"
             (report_kwargs sample_to_html [] (drawn sample_disk))) ∧
  ("engineering_insights_interactive_report.html" ∉ readonly sample_disk) ∧
  (script sample_to_html sample_render sample_parse_csv sample_disk).2 = inr ().
Proof.
  assert (files sample_disk !! "data/data.csv"
          = Some "NIVEL,CARGO,CATEGORIA,PONTUACAO")
    as Hdata by (vm_compute; reflexivity).
  assert (sample_parse_csv "NIVEL,CARGO,CATEGORIA,PONTUACAO" = Some [])
    as Hp by (vm_compute; reflexivity).
  assert (files sample_disk !! "templates/template.html" = Some "<html>")
    as Hf by (vm_compute; reflexivity).
  assert ("engineering_insights_interactive_report.html" ∉ readonly sample_disk)
    as Hw by apply not_elem_of_empty.
  split; [exact Hdata|]. split; [exact Hp|]. split; [exact Hf|].
  split; [eexists; reflexivity|]. split; [exact Hw|].
  pose proof (script_writes_report sample_to_html sample_render
                sample_parse_csv sample_disk _ _ _ _ Hdata Hp Hf eq_refl Hw)
    as H.
  cbv zeta in H. destruct H as (Hok & _). exact Hok.
Defined.
